(** * cgatcore/database.py: the TSV virtual table

    A shallow embedding of the virtual-table adapter of
    [cgatcore/database.py] ([_getfiledata], [_VirtualTable], [_Table],
    [_Cursor]) and the properties of its loader and of its cursor
    protocol; and of the helpers around it that do not need a database
    driver to be stated: the retry loop [executewait] and its caller
    [getTables], the dump [toTSV], and the statement runners
    [db_execute] and [execute].

    Conventions of the model.
    - A Python [str] is a [string]; its characters are the code points
      below 256.  Python integers are [Z].
    - An open text file is the sequence of lines its iteration yields
      ([for line in infile]); every line carries its own terminator.
      The file system is a function from paths to such files, [None]
      for a path that [open] rejects.
    - Objects with identity ([_Table], [_Cursor]) live in a heap and are
      referred to by location; methods are computations in a state and
      exception monad over that heap. *)

From Stdlib Require Import ZArith String Ascii List Bool Lia.
From stdpp Require Import base option list gmap.
Import ListNotations.

Local Open Scope string_scope.
Local Open Scope Z_scope.

(** ** Python strings *)

Module Py.

Definition TAB : ascii := ascii_of_nat 9.
Definition NL : ascii := ascii_of_nat 10.
Definition COMMA : ascii := ","%char.

(** [str.isspace] on one character: the code points below 256 that
    Python classifies as whitespace (TAB, LF, VT, FF, CR, FS, GS, RS, US,
    space, NEL and no-break space). *)
Definition isspace (a : ascii) : bool :=
  let n := N_of_ascii a in
  ((9 <=? n) && (n <=? 13) || (28 <=? n) && (n <=? 32)
   || (n =? 133) || (n =? 160))%N.

(** [s.replace(old, new)] for one-character [old] and [new]. *)
Fixpoint replace (old new : ascii) (s : string) : string :=
  match s with
  | EmptyString => EmptyString
  | String a s' =>
      String (if Ascii.eqb a old then new else a) (replace old new s')
  end.

(** [s.lstrip()]. *)
Fixpoint lstrip (s : string) : string :=
  match s with
  | EmptyString => EmptyString
  | String a s' => if isspace a then lstrip s' else s
  end.

(** [s.rstrip()]. *)
Fixpoint rstrip (s : string) : string :=
  match s with
  | EmptyString => EmptyString
  | String a s' =>
      match rstrip s' with
      | EmptyString => if isspace a then EmptyString else String a EmptyString
      | r => String a r
      end
  end.

(** [s.strip()]: whitespace is removed at both ends. *)
Definition strip (s : string) : string := rstrip (lstrip s).

(** [s.split(sep)] for a one-character separator: the result is never
    empty, and empty fields are kept. *)
Fixpoint split_on (sep : ascii) (s : string) : list string :=
  match s with
  | EmptyString => [EmptyString]
  | String a s' =>
      if Ascii.eqb a sep then EmptyString :: split_on sep s'
      else match split_on sep s' with
           | w :: ws => String a w :: ws
           | [] => [String a EmptyString]
           end
  end.

(** [s.split()] without argument: maximal runs of non-whitespace
    characters; [cur] is the token being read. *)
Fixpoint split_from (cur : string) (s : string) : list string :=
  match s with
  | EmptyString => match cur with EmptyString => [] | _ => [cur] end
  | String a s' =>
      if isspace a
      then match cur with
           | EmptyString => split_from EmptyString s'
           | _ => cur :: split_from EmptyString s'
           end
      else split_from (cur ++ String a EmptyString) s'
  end.

Definition split (s : string) : list string := split_from EmptyString s.

(** [a in s] for one character [a]. *)
Fixpoint contains (a : ascii) (s : string) : bool :=
  match s with
  | EmptyString => false
  | String b s' => Ascii.eqb b a || contains a s'
  end.

(** [sep.join(l)]. *)
Definition join (sep : string) (l : list string) : string :=
  String.concat sep l.

(** [l[i]] on a list: a negative index counts from the end, an index
    out of range has no element. *)
Definition index {A} (l : list A) (i : Z) : option A :=
  let n := Z.of_nat (length l) in
  if (0 <=? i) && (i <? n) then l !! Z.to_nat i
  else if (- n <=? i) && (i <? 0) then l !! Z.to_nat (n + i)
  else None.

(** [fmt_s x] is ['%s' % (x, )] on a [str], and [quoted x] is
    ["'%s'" % x]. *)
Definition fmt_s (x : string) : string := x.
Definition quoted (x : string) : string := "'" ++ fmt_s x ++ "'".

(** [re.search(pat, s)] for a pattern made of ordinary characters:
    [pat] occurs somewhere in [s]. *)
Fixpoint search (pat s : string) : bool :=
  match s with
  | EmptyString => String.prefix pat s
  | String _ s' => String.prefix pat s || search pat s'
  end.

(** The lines that iterating a file yields for its text [s] (after the
    translation of line ends to line feeds): every line ends with its
    line feed, but for a last line that has none. *)
Fixpoint iter_lines (s : string) : list string :=
  match s with
  | EmptyString => []
  | String a s' =>
      if Ascii.eqb a NL then String a EmptyString :: iter_lines s'
      else match iter_lines s' with
           | l :: ls => String a l :: ls
           | [] => [String a EmptyString]
           end
  end.

(** [all(P(a) for a in s)]. *)
Fixpoint all_chars (P : ascii -> bool) (s : string) : bool :=
  match s with
  | EmptyString => true
  | String a s' => P a && all_chars P s'
  end.

End Py.

(** ** Exceptions and the heap *)

Inductive exn := IOError | AttributeError | IndexError.

(** The outcome of a call.  [Dangling] is no Python behaviour: it marks
    the use of a location that was never allocated, which no state built
    by the constructors below contains. *)
Inductive outcome (A : Type) :=
  | Ok (a : A)
  | Raise (e : exn)
  | Dangling.
Arguments Ok {A} a.
Arguments Raise {A} e.
Arguments Dangling {A}.

Definition loc := nat.
Definition row := list string.

(** [_Table]: the attributes set by [_Table.__init__]. *)
Record _Table := mk_Table { columns : list string; data : list row }.

(** [_Cursor]: [table] is a reference to the provider; [pos] is absent
    until [Filter] assigns it. *)
Record _Cursor := mk_Cursor { table : loc; pos : option Z }.

Record heap := mk_heap {
  tables : gmap loc _Table;
  cursors : gmap loc _Cursor
}.

Definition empty_heap : heap := mk_heap ∅ ∅.

Definition M (A : Type) : Type := heap -> outcome A * heap.

Definition ret {A} (a : A) : M A := fun h => (Ok a, h).

Definition raise {A} (e : exn) : M A := fun h => (Raise e, h).

Definition bind {A B} (m : M A) (k : A -> M B) : M B :=
  fun h =>
    match m h with
    | (Ok a, h') => k a h'
    | (Raise e, h') => (Raise e, h')
    | (Dangling, h') => (Dangling, h')
    end.

Notation "'let*' x ':=' m 'in' k" := (bind m (fun x => k))
  (at level 10, x name, m at level 100, k at level 200).

Definition lift {A} (o : outcome A) : M A := fun h => (o, h).

(** [l[i]] as an expression: [IndexError] out of range. *)
Definition subscript {A} (l : list A) (i : Z) : M A :=
  match Py.index l i with
  | Some x => ret x
  | None => raise IndexError
  end.

(** Attribute reads and writes on a cursor object. *)
Definition get_table (self : loc) : M loc :=
  fun h =>
    match cursors h !! self with
    | Some c => (Ok (table c), h)
    | None => (Dangling, h)
    end.

Definition get_pos (self : loc) : M Z :=
  fun h =>
    match cursors h !! self with
    | Some c =>
        match pos c with
        | Some p => (Ok p, h)
        | None => (Raise AttributeError, h)
        end
    | None => (Dangling, h)
    end.

Definition set_pos (self : loc) (v : Z) : M unit :=
  fun h =>
    match cursors h !! self with
    | Some c =>
        (Ok tt, mk_heap (tables h)
                  (<[self := mk_Cursor (table c) (Some v)]> (cursors h)))
    | None => (Dangling, h)
    end.

(** Attribute read on a table object. *)
Definition get_data (t : loc) : M (list row) :=
  fun h =>
    match tables h !! t with
    | Some tb => (Ok (data tb), h)
    | None => (Dangling, h)
    end.

(** ** The loader: [_getfiledata] *)

(** The local variables of [_getfiledata]. *)
Record locals := mk_locals {
  l_columns : option string;
  l_data : list row;
  l_counter : Z
}.

(** [line.replace("\t", ",").strip().split(',')]. *)
Definition fields (line : string) : row :=
  Py.split_on Py.COMMA (Py.strip (Py.replace Py.TAB Py.COMMA line)).

(** The body of the inner loop, for one [line]. *)
Definition loop_body (st : locals) (line : string) : locals :=
  mk_locals
    (match l_columns st with None => Some line | Some c => Some c end)
    (l_data st ++ [fields line])
    (l_counter st + 1).

Section Loader.

Variable fs : string -> option (list string).

(** The outer loop over [path]; [open] raises on a path that the file
    system rejects. *)
Fixpoint for_paths (path : list string) (st : locals) : outcome locals :=
  match path with
  | [] => Ok st
  | p :: path' =>
      match fs p with
      | Some infile => for_paths path' (fold_left loop_body infile st)
      | None => Raise IOError
      end
  end.

Definition _getfiledata (path : list string)
  : outcome (option string * list row) :=
  match for_paths path (mk_locals None [] 1) with
  | Ok st => Ok (l_columns st, l_data st)
  | Raise e => Raise e
  | Dangling => Dangling
  end.

End Loader.

(** ** The classes *)

(** [_Table(columns, data)]: a new object, initialised by [__init__]. *)
Definition _Table_init (columns : list string) (data : list row) : M loc :=
  fun h =>
    let self := fresh (dom (tables h)) in
    (Ok self, mk_heap (<[self := mk_Table columns data]> (tables h))
                (cursors h)).

(** [_Cursor(table)]: a new object; [__init__] assigns [self.table]
    and nothing else. *)
Definition _Cursor_init (table : loc) : M loc :=
  fun h =>
    let self := fresh (dom (cursors h)) in
    (Ok self, mk_heap (tables h)
                (<[self := mk_Cursor table None]> (cursors h))).

Section VirtualTable.

Variable fs : string -> option (list string).
Context {Connection : Type}.

(** [_VirtualTable.Create]; the class has no attributes, so [self] is
    left out.  [columns.split()] on [None] raises [AttributeError]. *)
Definition _VirtualTable_Create (db : Connection)
    (modulename dbname tablename : string) (args : list string)
  : M (string * loc) :=
  let* cd := lift (_getfiledata fs args) in
  let* columns :=
    match fst cd with
    | Some line => ret (map Py.fmt_s (Py.split line))
    | None => raise AttributeError
    end in
  let schema :=
    "create table foo(" ++ Py.join "," (map Py.quoted columns) ++ ")" in
  let* t := _Table_init columns (snd cd) in
  ret (schema, t).

(** [Connect = Create]. *)
Definition _VirtualTable_Connect := _VirtualTable_Create.

End VirtualTable.

Definition _Table_BestIndex {A} (self : loc) (args : list A) : M unit :=
  ret tt.

Definition _Table_Open (self : loc) : M loc := _Cursor_init self.

Definition _Table_Disconnect (self : loc) : M unit := ret tt.

Definition _Table_Destroy := _Table_Disconnect.

Definition _Cursor_Filter {A} (self : loc) (args : list A) : M unit :=
  set_pos self 0.

Definition _Cursor_Eof (self : loc) : M bool :=
  let* p := get_pos self in
  let* t := get_table self in
  let* d := get_data t in
  ret (Z.of_nat (length d) <=? p).

Definition _Cursor_Rowid (self : loc) : M string :=
  let* t := get_table self in
  let* d := get_data t in
  let* p := get_pos self in
  let* r := subscript d p in
  subscript r 0.

Definition _Cursor_Column (self : loc) (col : Z) : M string :=
  let* t := get_table self in
  let* d := get_data t in
  let* p := get_pos self in
  let* r := subscript d p in
  subscript r col.

Definition _Cursor_Next (self : loc) : M unit :=
  let* p := get_pos self in
  set_pos self (p + 1).

Definition _Cursor_Close (self : loc) : M unit := ret tt.

(** ** The host engine's side

    The host drives a cursor by calling its methods; [call] names one
    such call, [answer] its return value, and [drive] runs a sequence of
    calls on several cursors, going on after a call that raised. *)

Inductive call :=
  | Filter (args : list Z)
  | Eof
  | Rowid
  | Column (col : Z)
  | Next
  | Close.

Inductive answer :=
  | ANone
  | ABool (b : bool)
  | AStr (s : string).

Definition invoke (self : loc) (m : call) : M answer :=
  match m with
  | Filter args => let* _ := _Cursor_Filter self args in ret ANone
  | Eof => let* b := _Cursor_Eof self in ret (ABool b)
  | Rowid => let* s := _Cursor_Rowid self in ret (AStr s)
  | Column col => let* s := _Cursor_Column self col in ret (AStr s)
  | Next => let* _ := _Cursor_Next self in ret ANone
  | Close => let* _ := _Cursor_Close self in ret ANone
  end.

Fixpoint drive (tr : list (loc * call)) (h : heap)
  : list (loc * outcome answer) * heap :=
  match tr with
  | [] => ([], h)
  | (c, m) :: tr' =>
      let r := invoke c m h in
      let rs := drive tr' (snd r) in
      ((c, fst r) :: fst rs, snd rs)
  end.

(** [k] calls of [Next] in a row. *)
Fixpoint nexts (self : loc) (k : nat) : M unit :=
  match k with
  | O => ret tt
  | S k' => let* _ := _Cursor_Next self in nexts self k'
  end.

(** ** Locality of a computation *)

(** [local self m]: the computation [m] leaves the tables and every
    cursor but [self] as they are, and what it returns and does to
    [self] depends on the tables and on [self] alone. *)
Record local (self : loc) {A} (m : M A) : Prop := mk_local {
  local_tables : forall h, tables (snd (m h)) = tables h;
  local_frame : forall h other,
    other <> self -> cursors (snd (m h)) !! other = cursors h !! other;
  local_reads : forall h1 h2,
    cursors h1 !! self = cursors h2 !! self ->
    tables h1 = tables h2 ->
    fst (m h1) = fst (m h2)
    /\ cursors (snd (m h1)) !! self = cursors (snd (m h2)) !! self
}.

(** ** Worked files *)

(** A line of tab-separated fields, with its line feed. *)
Definition tsv_line (l : list string) : string :=
  String.concat (String Py.TAB "") l ++ String Py.NL "".

Definition scores_fs (p : string) : option (list string) :=
  if String.eqb p "scores.tsv"
  then Some [tsv_line ["id"; "name"; "score"];
             tsv_line ["1"; "A"; "10"];
             tsv_line ["2"; "B"; "20"]]
  else None.

Definition scores_table : outcome (string * loc) * heap :=
  _VirtualTable_Create scores_fs tt "tsv" "main" "scores" ["scores.tsv"]
    empty_heap.

Definition scores_cursor : outcome loc * heap :=
  _Table_Open 0%nat (snd scores_table).

Definition parts_fs (p : string) : option (list string) :=
  if String.eqb p "a.tsv"
  then Some [tsv_line ["id"; "v"]; tsv_line ["1"; "x"]]
  else if String.eqb p "b.tsv"
  then Some [tsv_line ["id"; "v"]; tsv_line ["2"; "y"]]
  else None.

Definition commas_fs (p : string) : option (list string) :=
  if String.eqb p "c.tsv"
  then Some [tsv_line ["k"; "v"]; tsv_line ["a,b"]]
  else None.

Definition blank_fs (p : string) : option (list string) :=
  if String.eqb p "blank.tsv"
  then Some [tsv_line []; tsv_line ["1"; "A"]]
  else if String.eqb p "empty.tsv" then Some []
  else None.

(** ** Waiting for a locked database: [executewait]

    A database handle is seen through the answers of its successive
    [execute] calls: each call returns a cursor or raises [Exception]
    with a message ([str(msg)]).  The script of a handle lists these
    answers; when the script is used up the loop is still [Running].
    The trace records the calls of [execute] and of [time.sleep]. *)

Inductive response (C : Type) :=
  | Returns (cc : C)
  | Throws (msg : string).
Arguments Returns {C} cc.
Arguments Throws {C} msg.

Inductive event :=
  | Executed (statement : string)
  | Slept (seconds : Z).

Inductive finished (C : Type) :=
  | Returned (cc : C)
  | Raised (msg : string)
  | Running.
Arguments Returned {C} cc.
Arguments Raised {C} msg.
Arguments Running {C}.

Fixpoint executewait {C} (dbhandle : list (response C))
    (statement regex_error : string) (retries wait : Z)
  : finished C * list event :=
  match dbhandle with
  | [] => (Running, [])
  | Returns cc :: _ => (Returned cc, [Executed statement])
  | Throws msg :: dbhandle' =>
      if retries =? 0 then (Raised msg, [Executed statement])
      else if negb (Py.search "locked" msg)
      then (Raised msg, [Executed statement])
      else
        let r := executewait dbhandle' statement regex_error
                   (retries - 1) wait in
        (fst r, Executed statement :: Slept wait :: snd r)
  end.

(** The trace of failed attempts, each followed by its sleep: one
    for every message. *)
Definition attempts (statement : string) (wait : Z) (msgs : list string)
  : list event :=
  concat (map (fun _ => [Executed statement; Slept wait]) msgs).

(** ** Query results and [toTSV] *)

(** A value of a record: [None], or a value known by its [str()]. *)
Definition cell := option string.

(** What a cursor holds after [execute]: the names of [description]
    (the first item of each of its entries; [None] for a statement
    without result set) and the records that iterating it yields. *)
Record result_set := mk_result_set {
  description : option (list string);
  records : list (list cell)
}.

Inductive db_exn :=
  | DatabaseError (msg : string)
  | TypeError.

(** [str(x)], and the local [_str] of [toTSV]. *)
Definition str (x : cell) : string :=
  match x with Some s => s | None => "None" end.

Definition _str (x : cell) : string :=
  match x with Some s => s | None => "" end.

(** [toTSV]: [dbhandle] answers the one [execute] of its cursor;
    [outfile] is the text written so far, and each [write] appends to
    it.  Iterating a [description] that is [None] raises [TypeError]
    before anything is written. *)
Definition toTSV (dbhandle : string -> response result_set)
    (outfile : string) (statement : string) (remove_none : bool)
  : option db_exn * string :=
  match dbhandle statement with
  | Throws msg => (Some (DatabaseError msg), outfile)
  | Returns cc =>
      match description cc with
      | None => (Some TypeError, outfile)
      | Some names =>
          let outfile1 :=
            outfile ++ (Py.join (String Py.TAB "") names ++ String Py.NL "") in
          let f := if remove_none then _str else str in
          (None,
           outfile1 ++ Py.join (String Py.NL "")
                         (map (fun x => Py.join (String Py.TAB "") (map f x))
                            (records cc)))
      end
  end.

(** [getTables]: the first item of every record of the catalogue query,
    asked with the default [retries=-1] and [wait=5].  [first_items] is
    [[x[0] for x in cc]], without value when some [x[0]] raises
    [IndexError]. *)
Fixpoint first_items (recs : list (list cell)) : option (list cell) :=
  match recs with
  | [] => Some []
  | x :: recs' =>
      match Py.index x 0, first_items recs' with
      | Some v, Some vs => Some (v :: vs)
      | _, _ => None
      end
  end.

Definition getTables (dbhandle : list (response result_set))
  : finished (outcome (list cell)) * list event :=
  let r := executewait dbhandle
             "select name from sqlite_master where type='table'"
             "locked" (-1) 5 in
  (match fst r with
   | Returned cc =>
       Returned (match first_items (records cc) with
                 | Some names => Ok names
                 | None => Raise IndexError
                 end)
   | Raised msg => Raised msg
   | Running => Running
   end, snd r).

(** ** Running statements: [db_execute] and [execute]

    The database behind a cursor is a state of type [DB]; [cc_execute]
    is [cc.execute(statement)]: the state it leaves and, when it
    raises, the message of the exception. *)

(** The argument [statements]: one string, or a list or tuple. *)
Inductive statements :=
  | One (statement : string)
  | Many (l : list string).

Section Statements.

Context {DB : Type}.
Variable cc_execute : DB -> string -> DB * option string.

(** The loop of [db_execute]: it ends at the first statement that
    raises. *)
Fixpoint for_statements (l : list string) (cc : DB) : DB * option string :=
  match l with
  | [] => (cc, None)
  | statement :: l' =>
      match cc_execute cc statement with
      | (cc', None) => for_statements l' cc'
      | (cc', Some msg) => (cc', Some msg)
      end
  end.

Definition db_execute (cc : DB) (stmts : statements) : DB * option string :=
  for_statements (match stmts with One s => [s] | Many l => l end) cc.

(** [if attach:] . [None] stands for the default [False]. *)
Definition truth (attach : option statements) : bool :=
  match attach with
  | None => false
  | Some (One s) => negb (String.eqb s "")
  | Some (Many l) => match l with [] => false | _ => true end
  end.

(** The statements that [statements] stands for, and those that
    [execute] runs for [attach]. *)
Definition statement_list (stmts : statements) : list string :=
  match stmts with One s => [s] | Many l => l end.

Definition attached (attach : option statements) : list string :=
  match attach with
  | Some a => if truth attach then statement_list a else []
  | None => []
  end.

(** [execute]: the result is the state of the database, the message of
    the exception raised, if any, and whether the cursor was closed. *)
Definition execute (queries : statements) (dbhandle : DB)
    (attach : option statements) : DB * option string * bool :=
  let r1 :=
    match attach with
    | Some a => if truth attach then db_execute dbhandle a
                else (dbhandle, None)
    | None => (dbhandle, None)
    end in
  match r1 with
  | (cc, Some msg) => (cc, Some msg, false)
  | (cc, None) =>
      match db_execute cc queries with
      | (cc', Some msg) => (cc', Some msg, false)
      | (cc', None) => (cc', None, true)
      end
  end.

End Statements.

(** ** Well-formed cells

    [plain s]: no character of [s] is whitespace or a comma. *)
Definition plain (s : string) : bool :=
  Py.all_chars (fun a => negb (Py.isspace a) && negb (Ascii.eqb a Py.COMMA)) s.

(** ** Facts about the string primitives *)

Lemma split_on_not_nil sep s : Py.split_on sep s <> [].
Proof.
  destruct s as [|a s]; simpl; [discriminate|].
  destruct (Ascii.eqb a sep); [discriminate|].
  destruct (Py.split_on sep s); discriminate.
Qed.

Lemma split_on_absent sep s :
  Py.contains sep s = false -> Py.split_on sep s = [s].
Proof.
  induction s as [|a s IH]; simpl; [reflexivity|].
  intros H. apply orb_false_elim in H as [Ha Hs].
  rewrite Ha, (IH Hs). reflexivity.
Qed.

Lemma replace_absent old new s :
  Py.contains old s = false -> Py.replace old new s = s.
Proof.
  induction s as [|a s IH]; simpl; [reflexivity|].
  intros H. apply orb_false_elim in H as [Ha Hs].
  rewrite Ha, (IH Hs). reflexivity.
Qed.

Lemma lstrip_absent a s :
  Py.contains a s = false -> Py.contains a (Py.lstrip s) = false.
Proof.
  induction s as [|b s IH]; simpl; [reflexivity|].
  intros H. destruct (Py.isspace b); simpl.
  - apply IH. apply orb_false_elim in H. tauto.
  - exact H.
Qed.

Lemma rstrip_absent a s :
  Py.contains a s = false -> Py.contains a (Py.rstrip s) = false.
Proof.
  induction s as [|b s IH]; simpl; [reflexivity|].
  intros H. apply orb_false_elim in H as [Hb Hs]. specialize (IH Hs).
  destruct (Py.rstrip s) as [|c r].
  - destruct (Py.isspace b); simpl; [reflexivity|]. now rewrite Hb.
  - change (Py.contains a (String b (String c r)))
      with (Ascii.eqb b a || Py.contains a (String c r)).
    now rewrite Hb, IH.
Qed.

Lemma strip_absent a s :
  Py.contains a s = false -> Py.contains a (Py.strip s) = false.
Proof. intros H. apply rstrip_absent, lstrip_absent, H. Qed.

(** ** Facts about the loader *)

Section LoaderFacts.

Variable fs : string -> option (list string).

(** The inner loop appends one row per line, keeps the first line ever
    seen in [columns] and counts the lines. *)
Lemma fold_loop_body lines : forall st,
  fold_left loop_body lines st =
  mk_locals
    (match l_columns st with None => head lines | Some c => Some c end)
    (l_data st ++ map fields lines)
    (l_counter st + Z.of_nat (length lines)).
Proof.
  induction lines as [|l lines IH]; intros [c d n]; simpl.
  - rewrite app_nil_r, Z.add_0_r. now destruct c.
  - rewrite IH. unfold loop_body; simpl. f_equal.
    + now destruct c.
    + now rewrite <- List.app_assoc.
    + rewrite Nat2Z.inj_succ. lia.
Qed.

Lemma for_paths_ok path files :
  Forall2 (fun p f => fs p = Some f) path files ->
  forall st,
    for_paths fs path st = Ok (fold_left loop_body (concat files) st).
Proof.
  induction 1 as [|p f path files Hp _ IH]; intros st; simpl.
  - reflexivity.
  - rewrite Hp, IH, fold_left_app. reflexivity.
Qed.

Lemma for_paths_inv path : forall st st',
  for_paths fs path st = Ok st' ->
  exists files, Forall2 (fun p f => fs p = Some f) path files.
Proof.
  induction path as [|p path IH]; intros st st'; simpl.
  - exists []. constructor.
  - destruct (fs p) as [f|] eqn:Hp; [|discriminate].
    intros H. apply IH in H as [files Hfiles].
    exists (f :: files). now constructor.
Qed.

(** When every path opens, the loader returns the first line read and
    one row per line read, whichever file the line is in. *)
Lemma _getfiledata_ok path files :
  Forall2 (fun p f => fs p = Some f) path files ->
  _getfiledata fs path =
  Ok (head (concat files), map fields (concat files)).
Proof.
  intros H. unfold _getfiledata.
  rewrite (for_paths_ok _ _ H), fold_loop_body. reflexivity.
Qed.

Lemma _getfiledata_inv path c d :
  _getfiledata fs path = Ok (c, d) ->
  exists files,
    Forall2 (fun p f => fs p = Some f) path files
    /\ c = head (concat files) /\ d = map fields (concat files).
Proof.
  unfold _getfiledata.
  destruct (for_paths fs path _) as [st| |] eqn:E; try discriminate.
  intros [= <- <-].
  destruct (for_paths_inv _ _ _ E) as [files Hf].
  exists files. split; [exact Hf|].
  rewrite (for_paths_ok _ _ Hf), fold_loop_body in E.
  injection E as <-. now split.
Qed.

(** The loader raises nothing but the error of [open]. *)
Lemma _getfiledata_raises path :
  (exists c d, _getfiledata fs path = Ok (c, d))
  \/ _getfiledata fs path = Raise IOError.
Proof.
  unfold _getfiledata.
  assert (H : forall st, (exists st', for_paths fs path st = Ok st')
                         \/ for_paths fs path st = Raise IOError).
  { induction path as [|p path IH]; intros st; simpl; [eauto|].
    destruct (fs p); [apply IH | now right]. }
  destruct (H (mk_locals None [] 1)) as [[st' ->] | ->]; eauto.
Qed.

Lemma length_concat_files (files : list (list string)) :
  length (concat files) = list_sum (map (@length string) files).
Proof.
  induction files as [|f files IH]; simpl; [reflexivity|].
  now rewrite length_app, IH.
Qed.

End LoaderFacts.

(** ** Facts about cursors *)

Lemma heap_eta h : mk_heap (tables h) (cursors h) = h.
Proof. now destruct h. Qed.

Lemma fresh_cursor h : cursors h !! fresh (dom (cursors h)) = None.
Proof. apply not_elem_of_dom, is_fresh. Qed.

Create HintDb local.

Lemma local_ret self {A} (a : A) : local self (ret a).
Proof. split; intros; simpl; auto. Qed.

Lemma local_raise self {A} e : local self (@raise A e).
Proof. split; intros; simpl; auto. Qed.

Lemma local_lift self {A} (o : outcome A) : local self (lift o).
Proof. split; intros; simpl; auto. Qed.

Lemma local_bind self {A B} (m : M A) (k : A -> M B) :
  local self m -> (forall a, local self (k a)) -> local self (bind m k).
Proof.
  intros [Mt Mf Mr] Hk. split.
  - intros h. unfold bind. specialize (Mt h).
    destruct (m h) as [[a| |] h']; simpl in *; auto.
    now rewrite (local_tables _ _ (Hk a)).
  - intros h other Hne. unfold bind. specialize (Mf h other Hne).
    destruct (m h) as [[a| |] h']; simpl in *; auto.
    now rewrite (local_frame _ _ (Hk a)).
  - intros h1 h2 Hc Ht. unfold bind.
    destruct (Mr h1 h2 Hc Ht) as [Ho Hs].
    pose proof (Mt h1) as T1. pose proof (Mt h2) as T2.
    destruct (m h1) as [o1 h1'], (m h2) as [o2 h2']; simpl in *.
    subst o2. destruct o1 as [a| |]; simpl; auto.
    apply (local_reads _ _ (Hk a)); congruence.
Qed.

Lemma local_subscript self {A} (l : list A) i : local self (subscript l i).
Proof.
  unfold subscript. destruct (Py.index l i);
    [apply local_ret | apply local_raise].
Qed.

Lemma local_get_pos self : local self (get_pos self).
Proof.
  split; unfold get_pos.
  - intros h. now repeat case_match.
  - intros h other _. now repeat case_match.
  - intros h1 h2 Hc _. rewrite Hc.
    destruct (cursors h2 !! self) as [[t [p|]]|] eqn:E; simpl; auto;
      split; congruence.
Qed.

Lemma local_get_table self : local self (get_table self).
Proof.
  split; unfold get_table.
  - intros h. now case_match.
  - intros h other _. now case_match.
  - intros h1 h2 Hc _. rewrite Hc.
    destruct (cursors h2 !! self) eqn:E; simpl; split; congruence.
Qed.

Lemma local_get_data self t : local self (get_data t).
Proof.
  split; unfold get_data.
  - intros h. now case_match.
  - intros h other _. now case_match.
  - intros h1 h2 Hc ->. destruct (tables h2 !! t); simpl; auto.
Qed.

Lemma local_set_pos self v : local self (set_pos self v).
Proof.
  split; unfold set_pos.
  - intros h. now case_match.
  - intros h other Hne. case_match; simpl; auto.
    now rewrite lookup_insert_ne.
  - intros h1 h2 Hc _. rewrite <- Hc.
    destruct (cursors h1 !! self) eqn:E; simpl.
    + now rewrite !lookup_insert_eq.
    + split; congruence.
Qed.

#[export] Hint Resolve local_ret local_raise local_lift local_bind
  local_subscript local_get_pos local_get_table local_get_data
  local_set_pos : local.

(** Every method of a cursor is local to that cursor. *)
Lemma local_invoke self m : local self (invoke self m).
Proof.
  destruct m; unfold invoke, _Cursor_Filter, _Cursor_Eof, _Cursor_Rowid,
    _Cursor_Column, _Cursor_Next, _Cursor_Close; auto 12 with local.
Qed.

(** The calls made on one cursor see neither the calls made on the
    others nor their effect. *)
Lemma drive_project c : forall tr h1 h2,
  cursors h1 !! c = cursors h2 !! c ->
  tables h1 = tables h2 ->
  filter (fun x => fst x = c) (fst (drive tr h1))
  = fst (drive (filter (fun x => fst x = c) tr) h2)
  /\ cursors (snd (drive tr h1)) !! c
     = cursors (snd (drive (filter (fun x => fst x = c) tr) h2)) !! c.
Proof.
  induction tr as [|[c' m] tr IH]; intros h1 h2 Hc Ht.
  - simpl. auto.
  - cbn [drive]. destruct (decide (c' = c)) as [->|Hne].
    + cbn [fst snd]. rewrite !filter_cons_True by reflexivity.
      cbn [drive fst snd].
      destruct (local_reads _ _ (local_invoke c m) h1 h2 Hc Ht) as [Ho Hs].
      destruct (IH (snd (invoke c m h1)) (snd (invoke c m h2)) Hs) as [I1 I2].
      { rewrite !(local_tables _ _ (local_invoke c m)). exact Ht. }
      rewrite Ho, I1, I2. auto.
    + cbn [fst snd]. rewrite !filter_cons_False by (simpl; congruence).
      apply IH.
      * rewrite (local_frame _ _ (local_invoke c' m)); auto.
      * now rewrite (local_tables _ _ (local_invoke c' m)).
Qed.

Lemma drive_tables : forall tr h, tables (snd (drive tr h)) = tables h.
Proof.
  induction tr as [|[c m] tr IH]; intros h; simpl; [reflexivity|].
  now rewrite IH, (local_tables _ _ (local_invoke c m)).
Qed.

(** What [Filter], [Next] and [Eof] do to a cursor that exists. *)
Lemma Filter_state {A} self (args : list A) h c :
  cursors h !! self = Some c ->
  _Cursor_Filter self args h =
  (Ok tt, mk_heap (tables h)
            (<[self := mk_Cursor (table c) (Some 0)]> (cursors h))).
Proof. intros H. unfold _Cursor_Filter, set_pos. now rewrite H. Qed.

Lemma Next_state self h t p :
  cursors h !! self = Some (mk_Cursor t (Some p)) ->
  _Cursor_Next self h =
  (Ok tt, mk_heap (tables h)
            (<[self := mk_Cursor t (Some (p + 1))]> (cursors h))).
Proof.
  intros H. unfold _Cursor_Next, bind, get_pos, set_pos.
  now rewrite H; simpl; rewrite H.
Qed.

Lemma nexts_state self k : forall h t p,
  cursors h !! self = Some (mk_Cursor t (Some p)) ->
  nexts self k h =
  (Ok tt, mk_heap (tables h)
            (<[self := mk_Cursor t (Some (p + Z.of_nat k))]> (cursors h))).
Proof.
  induction k as [|k IH]; intros h t p H.
  - simpl. unfold ret. rewrite Z.add_0_r, (insert_id _ _ _ H).
    now rewrite heap_eta.
  - replace (p + Z.of_nat (S k)) with (p + 1 + Z.of_nat k) by lia.
    cbn [nexts]. unfold bind. rewrite (Next_state _ _ _ _ H).
    rewrite (IH _ t (p + 1)) by (simpl; apply lookup_insert_eq).
    simpl. now rewrite insert_insert_eq.
Qed.

Lemma Eof_positioned self h t p tb :
  cursors h !! self = Some (mk_Cursor t (Some p)) ->
  tables h !! t = Some tb ->
  _Cursor_Eof self h = (Ok (Z.of_nat (length (data tb)) <=? p), h).
Proof.
  intros Hc Ht. unfold _Cursor_Eof, bind, get_pos, get_table, get_data, ret.
  rewrite Hc; simpl. rewrite Hc; simpl. now rewrite Ht.
Qed.

(** ** Facts about [Create] *)

Lemma map_fmt_s l : map Py.fmt_s l = l.
Proof. induction l as [|x l IH]; simpl; [|rewrite IH]; reflexivity. Qed.

(** [Create] in one piece: the load, the header split into column
    names, the declaration, and the new provider. *)
Lemma Create_unfold fs {Connection} (db : Connection) mn dn tn args h :
  _VirtualTable_Create fs db mn dn tn args h =
  match _getfiledata fs args with
  | Ok (Some header, d) =>
      let t := fresh (dom (tables h)) in
      (Ok ("create table foo("
           ++ Py.join "," (map Py.quoted (Py.split header)) ++ ")", t),
       mk_heap (<[t := mk_Table (Py.split header) d]> (tables h))
         (cursors h))
  | Ok (None, _) => (Raise AttributeError, h)
  | Raise e => (Raise e, h)
  | Dangling => (Dangling, h)
  end.
Proof.
  unfold _VirtualTable_Create, bind, lift, ret, raise, _Table_init.
  destruct (_getfiledata fs args) as [[[header|] d]| |]; simpl;
    try reflexivity.
  now rewrite map_fmt_s.
Qed.


(** ** The loader and the row store *)

(** A single file: the header names the columns and is itself the
    first row of the row store; the other lines follow in file order. *)
Lemma single_file_load fs p header rest :
  fs p = Some (header :: rest) ->
  _getfiledata fs [p]
  = Ok (Some header, fields header :: map fields rest).
Proof.
  intros H.
  rewrite (_getfiledata_ok fs [p] [header :: rest]) by (repeat constructor; exact H).
  simpl. now rewrite app_nil_r.
Qed.

(** Tabs become commas before the line is trimmed: a comma in the text
    separates fields, whitespace goes at both ends, and a tab at the end
    of the line leaves an empty last field. *)
Example fields_of_a_mixed_line :
  fields (" a,b" ++ String Py.TAB "c" ++ String Py.TAB " " ++ String Py.NL "")
  = ["a"; "b"; "c"; ""].
Proof. reflexivity. Qed.

(** Every row has a first field. *)
Lemma fields_not_nil l : fields l <> [].
Proof. apply split_on_not_nil. Qed.

(** The row store has one row for every line of every file. *)
Lemma _getfiledata_length fs path files :
  Forall2 (fun p f => fs p = Some f) path files ->
  exists c d,
    _getfiledata fs path = Ok (c, d)
    /\ length d = list_sum (map (@length string) files).
Proof.
  intros H. eexists _, _. split; [apply (_getfiledata_ok _ _ _ H)|].
  now rewrite length_map, length_concat_files.
Qed.

(** C1. The code on the file of the example: the schema has the three
    columns of the header, but the row store has three rows, not two,
    the first being the header line itself; so after [Open] and
    [Filter], [Rowid] is ["id"] and [Column 1] is ["name"], after one
    [Next] the row id is ["1"], after a second [Next] the cursor is not
    at its end and the row id is ["2"], and only a third [Next] reaches
    the end. *)
Theorem C1_header_line_is_stored_as_a_row :
  fst scores_table = Ok ("create table foo('id','name','score')", 0%nat)
  /\ tables (snd scores_table) !! 0%nat
     = Some (mk_Table ["id"; "name"; "score"]
               [["id"; "name"; "score"]; ["1"; "A"; "10"]; ["2"; "B"; "20"]])
  /\ fst scores_cursor = Ok 0%nat
  /\ fst (drive [(0%nat, Filter []); (0%nat, Rowid); (0%nat, Column 1);
                 (0%nat, Next); (0%nat, Rowid);
                 (0%nat, Next); (0%nat, Eof); (0%nat, Rowid);
                 (0%nat, Next); (0%nat, Eof)]
            (snd scores_cursor))
     = [(0%nat, Ok ANone); (0%nat, Ok (AStr "id")); (0%nat, Ok (AStr "name"));
        (0%nat, Ok ANone); (0%nat, Ok (AStr "1"));
        (0%nat, Ok ANone); (0%nat, Ok (ABool false)); (0%nat, Ok (AStr "2"));
        (0%nat, Ok ANone); (0%nat, Ok (ABool true))].
Proof. repeat split; vm_compute; reflexivity. Qed.

(** C2. The code on two files of two lines each: the row store has
    four rows, one for every line, the header line of the first file
    included; the sum of the line counts minus one is three. *)
Theorem C2_every_line_is_a_row :
  option_map (@length string) (parts_fs "a.tsv") = Some 2%nat
  /\ option_map (@length string) (parts_fs "b.tsv") = Some 2%nat
  /\ _getfiledata parts_fs ["a.tsv"; "b.tsv"]
     = Ok (Some (tsv_line ["id"; "v"]),
           [["id"; "v"]; ["1"; "x"]; ["id"; "v"]; ["2"; "y"]])
  /\ match _getfiledata parts_fs ["a.tsv"; "b.tsv"] with
     | Ok (_, d) => length d = 4%nat
     | _ => False
     end.
Proof. repeat split; vm_compute; reflexivity. Qed.

(** C3, as stated, fails: the second line of [c.tsv] is [a,b] and has
    no tab, yet its row has the two fields [a] and [b]; splitting the
    line on tabs after trimming it on the right gives the one field
    [a,b]. *)
Lemma C3_comma_splits_fields :
  ~ (forall fs path files header rest,
       Forall2 (fun p f => fs p = Some f) path files ->
       concat files = header :: rest ->
       exists c pre,
         _getfiledata fs path
         = Ok (c, (pre ++ map (fun l => Py.split_on Py.TAB (Py.rstrip l))
                            rest)%list)).
Proof.
  intros H.
  destruct (H commas_fs ["c.tsv"]
              [[tsv_line ["k"; "v"]; tsv_line ["a,b"]]]
              (tsv_line ["k"; "v"]) [tsv_line ["a,b"]])
    as (c & pre & E).
  - repeat constructor.
  - reflexivity.
  - vm_compute in E. injection E as _ E.
    destruct pre as [|r0 [|r1 [|r2 pre]]]; discriminate E.
Qed.

(** C3, amended.  The rows of the data lines end the row store, in the
    order the lines are read, and each is its line with every tab
    replaced by a comma, then trimmed of whitespace at both ends, then
    split on commas; a data line with neither tab nor comma gives the
    single field that is the line trimmed at both ends. *)
Theorem C3_rows_are_comma_split fs path files header rest :
  Forall2 (fun p f => fs p = Some f) path files ->
  concat files = header :: rest ->
  (exists c pre,
     _getfiledata fs path
     = Ok (c, (pre ++ map (fun l => Py.split_on Py.COMMA
                                      (Py.strip (Py.replace Py.TAB Py.COMMA l)))
                        rest)%list))
  /\ (forall l,
        In l rest ->
        Py.contains Py.TAB l = false ->
        Py.contains Py.COMMA l = false ->
        Py.split_on Py.COMMA (Py.strip (Py.replace Py.TAB Py.COMMA l))
        = [Py.strip l]).
Proof.
  intros Hopen Hlines. split.
  - exists (Some header), [fields header].
    rewrite (_getfiledata_ok _ _ _ Hopen), Hlines. reflexivity.
  - intros l _ Htab Hcomma.
    rewrite (replace_absent _ _ _ Htab).
    apply split_on_absent, strip_absent, Hcomma.
Qed.

(** The amended C3 on [c.tsv]. *)
Lemma C3_rows_are_comma_split_witness :
  (exists c pre,
     _getfiledata commas_fs ["c.tsv"]
     = Ok (c, (pre ++ map (fun l => Py.split_on Py.COMMA
                                      (Py.strip (Py.replace Py.TAB Py.COMMA l)))
                        [tsv_line ["a,b"]])%list))
  /\ (forall l,
        In l [tsv_line ["a,b"]] ->
        Py.contains Py.TAB l = false ->
        Py.contains Py.COMMA l = false ->
        Py.split_on Py.COMMA (Py.strip (Py.replace Py.TAB Py.COMMA l))
        = [Py.strip l]).
Proof.
  apply (C3_rows_are_comma_split commas_fs ["c.tsv"]
           [[tsv_line ["k"; "v"]; tsv_line ["a,b"]]]
           (tsv_line ["k"; "v"]) [tsv_line ["a,b"]]).
  - repeat constructor.
  - reflexivity.
Defined.

(** ** The cursor protocol *)

(** C4. On a cursor of a provider with [N] rows, [Eof] right after
    [Filter] answers [true] exactly when the row store is empty; after
    [Filter] and [k] calls of [Next] it answers [false] for [k < N]
    and [true] for [k = N]. *)
Theorem C4_eof_counts_the_rows {A} (h : heap) (self : loc) (c : _Cursor)
    (tb : _Table) (args : list A) :
  cursors h !! self = Some c ->
  tables h !! table c = Some tb ->
  let N := length (data tb) in
  let eof_after k :=
    fst ((let* _ := _Cursor_Filter self args in
          let* _ := nexts self k in
          _Cursor_Eof self) h) in
  (exists b,
     fst ((let* _ := _Cursor_Filter self args in _Cursor_Eof self) h) = Ok b
     /\ (b = true <-> data tb = []))
  /\ (forall k, (k < N)%nat -> eof_after k = Ok false)
  /\ eof_after N = Ok true.
Proof.
  intros Hc Ht N eof_after.
  assert (E : forall k, eof_after k = Ok (Z.of_nat N <=? Z.of_nat k)).
  { intros k. unfold eof_after, bind.
    rewrite (Filter_state _ _ _ _ Hc).
    rewrite (nexts_state _ k _ (table c) 0) by (simpl; apply lookup_insert_eq).
    erewrite Eof_positioned;
      [|simpl; apply lookup_insert_eq | simpl; exact Ht].
    reflexivity. }
  split; [|split].
  - exists (Z.of_nat N <=? 0). split.
    + unfold bind. rewrite (Filter_state _ _ _ _ Hc).
      erewrite Eof_positioned;
        [|simpl; apply lookup_insert_eq | simpl; exact Ht].
      reflexivity.
    + rewrite Z.leb_le. subst N. destruct (data tb); simpl; split;
        intros; try reflexivity; try discriminate; lia.
  - intros k Hk. rewrite E. f_equal. apply Z.leb_gt. lia.
  - rewrite E. f_equal. apply Z.leb_le. lia.
Qed.

(** C4 on the cursor of the worked file. *)
Lemma C4_eof_counts_the_rows_witness :
  let h := snd scores_cursor in
  let eof_after k :=
    fst ((let* _ := _Cursor_Filter 0%nat ([] : list Z) in
          let* _ := nexts 0%nat k in
          _Cursor_Eof 0%nat) h) in
  (exists b,
     fst ((let* _ := _Cursor_Filter 0%nat ([] : list Z) in
           _Cursor_Eof 0%nat) h) = Ok b
     /\ (b = true <->
         [["id"; "name"; "score"]; ["1"; "A"; "10"]; ["2"; "B"; "20"]] = []))
  /\ (forall k, (k < 3)%nat -> eof_after k = Ok false)
  /\ eof_after 3%nat = Ok true.
Proof.
  apply (C4_eof_counts_the_rows (snd scores_cursor) 0%nat
           (mk_Cursor 0%nat None)
           (mk_Table ["id"; "name"; "score"]
              [["id"; "name"; "score"]; ["1"; "A"; "10"]; ["2"; "B"; "20"]])
           ([] : list Z)); vm_compute; reflexivity.
Defined.

(** C5. Two cursors opened on one provider are two objects; a call on
    either leaves the other cursor and the tables as they were; and in
    any interleaving of calls on the two, each cursor answers and ends
    up exactly as if the calls on the other had not been made. *)
Theorem C5_cursors_do_not_interfere (h : heap) (t : loc) :
  let o1 := _Table_Open t h in
  let o2 := _Table_Open t (snd o1) in
  exists c1 c2,
    fst o1 = Ok c1 /\ fst o2 = Ok c2 /\ c1 <> c2
    /\ cursors (snd o2) !! c1 = Some (mk_Cursor t None)
    /\ cursors (snd o2) !! c2 = Some (mk_Cursor t None)
    /\ tables (snd o2) = tables h
    /\ (forall m h',
          cursors (snd (invoke c1 m h')) !! c2 = cursors h' !! c2
          /\ cursors (snd (invoke c2 m h')) !! c1 = cursors h' !! c1
          /\ tables (snd (invoke c1 m h')) = tables h'
          /\ tables (snd (invoke c2 m h')) = tables h')
    /\ (forall tr,
          let both := drive tr (snd o2) in
          let only c := drive (filter (fun x => fst x = c) tr) (snd o2) in
          tables (snd both) = tables h
          /\ filter (fun x => fst x = c1) (fst both) = fst (only c1)
          /\ cursors (snd both) !! c1 = cursors (snd (only c1)) !! c1
          /\ filter (fun x => fst x = c2) (fst both) = fst (only c2)
          /\ cursors (snd both) !! c2 = cursors (snd (only c2)) !! c2).
Proof.
  intros o1 o2.
  set (c1 := fresh (dom (cursors h))).
  set (h1 := mk_heap (tables h) (<[c1 := mk_Cursor t None]> (cursors h))).
  set (c2 := fresh (dom (cursors h1))).
  assert (Hne : c1 <> c2).
  { intros E. pose proof (fresh_cursor h1) as F. fold c2 in F.
    rewrite <- E in F. simpl in F. rewrite lookup_insert_eq in F.
    discriminate. }
  exists c1, c2. repeat split; try reflexivity; try exact Hne.
  - change (cursors (snd o2)) with (<[c2 := mk_Cursor t None]> (cursors h1)).
    rewrite lookup_insert_ne by congruence. apply lookup_insert_eq.
  - apply lookup_insert_eq.
  - apply (local_frame _ _ (local_invoke c1 m)). congruence.
  - apply (local_frame _ _ (local_invoke c2 m)). congruence.
  - apply (local_tables _ _ (local_invoke c1 m)).
  - apply (local_tables _ _ (local_invoke c2 m)).
  - now rewrite drive_tables.
  - apply drive_project; reflexivity.
  - apply drive_project; reflexivity.
  - apply drive_project; reflexivity.
  - apply drive_project; reflexivity.
Qed.

(** C7, as stated, fails: on the cursor of the worked file, after
    [Filter] and [Close], [Eof] returns normally. *)
Lemma C7_calls_after_close_succeed :
  ~ (forall h self c,
       cursors h !! self = Some c ->
       forall m, exists e,
         fst ((let* _ := _Cursor_Close self in invoke self m) h) = Raise e).
Proof.
  intros H.
  destruct (H (snd (_Cursor_Filter 0%nat ([] : list Z) (snd scores_cursor)))
              0%nat (mk_Cursor 0%nat (Some 0)) eq_refl Eof) as [e E].
  vm_compute in E. discriminate E.
Qed.

(** C7, amended.  [Close] returns [None] and changes nothing: a call
    made after it answers and acts as the same call made without it,
    and so does every sequence of calls. *)
Theorem C7_close_changes_nothing (h : heap) (self : loc) :
  _Cursor_Close self h = (Ok tt, h)
  /\ (forall m,
        (let* _ := _Cursor_Close self in invoke self m) h = invoke self m h)
  /\ (forall tr,
        drive ((self, Close) :: tr) h
        = ((self, Ok ANone) :: fst (drive tr h), snd (drive tr h))).
Proof. repeat split. Qed.

(** C8, as stated, fails: on the cursor that [Open] returns for the
    provider of the worked file, [Eof] raises before the first
    [Filter]. *)
Lemma C8_fresh_cursor_has_no_position :
  ~ (forall h t tb,
       tables h !! t = Some tb ->
       exists c h',
         _Table_Open t h = (Ok c, h')
         /\ (exists b, fst (_Cursor_Eof c h') = Ok b)
         /\ fst (_Cursor_Next c h') = Ok tt).
Proof.
  intros H.
  destruct (H (snd scores_table) 0%nat
              (mk_Table ["id"; "name"; "score"]
                 [["id"; "name"; "score"]; ["1"; "A"; "10"];
                  ["2"; "B"; "20"]]))
    as (c & h' & E & [b Hb] & _).
  - vm_compute. reflexivity.
  - injection E as <- <-. vm_compute in Hb. discriminate Hb.
Qed.

(** C8, amended.  [Open] returns a cursor that did not exist, refers to
    the provider and has no position; the tables and the cursors that
    existed are as before.  On it [Eof], [Next], [Rowid] and [Column]
    raise [AttributeError]; [Filter] gives it the position 0, the first
    row. *)
Theorem C8_open_returns_unpositioned_cursor {A} (h : heap) (t : loc)
    (tb : _Table) (args : list A) (col : Z) :
  tables h !! t = Some tb ->
  exists c h',
    _Table_Open t h = (Ok c, h')
    /\ cursors h !! c = None
    /\ cursors h' = <[c := mk_Cursor t None]> (cursors h)
    /\ tables h' = tables h
    /\ _Cursor_Eof c h' = (Raise AttributeError, h')
    /\ _Cursor_Next c h' = (Raise AttributeError, h')
    /\ _Cursor_Rowid c h' = (Raise AttributeError, h')
    /\ _Cursor_Column c col h' = (Raise AttributeError, h')
    /\ cursors (snd (_Cursor_Filter c args h')) !! c
       = Some (mk_Cursor t (Some 0)).
Proof.
  intros Ht. eexists _, _. split; [reflexivity|].
  set (c := fresh (dom (cursors h))).
  assert (Hc : <[c := mk_Cursor t None]> (cursors h) !! c
               = Some (mk_Cursor t None)) by apply lookup_insert_eq.
  repeat split.
  - apply fresh_cursor.
  - unfold _Cursor_Eof, bind, get_pos; simpl. now rewrite Hc.
  - unfold _Cursor_Next, bind, get_pos; simpl. now rewrite Hc.
  - unfold _Cursor_Rowid, bind, get_table, get_data, get_pos; simpl.
    rewrite Hc; simpl. rewrite Ht; simpl. now rewrite Hc.
  - unfold _Cursor_Column, bind, get_table, get_data, get_pos; simpl.
    rewrite Hc; simpl. rewrite Ht; simpl. now rewrite Hc.
  - unfold _Cursor_Filter, set_pos; simpl. rewrite Hc; simpl.
    apply lookup_insert_eq.
Qed.

(** The amended C8 on the provider of the worked file. *)
Lemma C8_open_returns_unpositioned_cursor_witness :
  exists c h',
    _Table_Open 0%nat (snd scores_table) = (Ok c, h')
    /\ cursors (snd scores_table) !! c = None
    /\ cursors h' = <[c := mk_Cursor 0%nat None]> (cursors (snd scores_table))
    /\ tables h' = tables (snd scores_table)
    /\ _Cursor_Eof c h' = (Raise AttributeError, h')
    /\ _Cursor_Next c h' = (Raise AttributeError, h')
    /\ _Cursor_Rowid c h' = (Raise AttributeError, h')
    /\ _Cursor_Column c 1 h' = (Raise AttributeError, h')
    /\ cursors (snd (_Cursor_Filter c ([] : list Z) h')) !! c
       = Some (mk_Cursor 0%nat (Some 0)).
Proof.
  apply (C8_open_returns_unpositioned_cursor (snd scores_table) 0%nat
           (mk_Table ["id"; "name"; "score"]
              [["id"; "name"; "score"]; ["1"; "A"; "10"]; ["2"; "B"; "20"]])
           ([] : list Z) 1).
  vm_compute. reflexivity.
Defined.

(** ** Creating and connecting *)

Section Creation.

Variable fs : string -> option (list string).
Context {Connection : Type}.
Variable db : Connection.
Variables modulename dbname tablename : string.
Variable args : list string.

(** C6. [Connect] is [Create]: on every state the two return the same
    outcome and leave the same state.  Each call runs the load again:
    on the state that a successful [Create] leaves, [Connect] returns
    the same declaration and a provider with the same columns and
    rows. *)
Theorem C6_connect_is_create (h : heap) :
  _VirtualTable_Connect fs db modulename dbname tablename args h
  = _VirtualTable_Create fs db modulename dbname tablename args h
  /\ (forall schema t h1,
        _VirtualTable_Create fs db modulename dbname tablename args h
        = (Ok (schema, t), h1) ->
        exists t' h2,
          _VirtualTable_Connect fs db modulename dbname tablename args h1
          = (Ok (schema, t'), h2)
          /\ tables h2 !! t' = tables h1 !! t).
Proof.
  split; [reflexivity|].
  intros schema t h1. unfold _VirtualTable_Connect.
  rewrite !Create_unfold.
  destruct (_getfiledata fs args) as [[[header|] d]| |]; try discriminate.
  intros [= <- <- <-]. eexists _, _. split; [reflexivity|].
  cbn [tables]. now rewrite !lookup_insert_eq.
Qed.

(** C9. When every path opens on a file without lines (and so when
    there is no path at all), [Create] raises [AttributeError] and
    allocates nothing.  When [Create] returns a provider without
    columns, every path opened, at least one line was read, and the
    first line read has no whitespace-separated token. *)
Theorem C9_no_line_no_schema (h : heap) :
  (Forall (fun p => fs p = Some []) args ->
   _VirtualTable_Create fs db modulename dbname tablename args h
   = (Raise AttributeError, h)
   /\ _VirtualTable_Connect fs db modulename dbname tablename args h
      = (Raise AttributeError, h))
  /\ (forall schema t h' tb,
        _VirtualTable_Create fs db modulename dbname tablename args h
        = (Ok (schema, t), h') ->
        tables h' !! t = Some tb ->
        columns tb = [] ->
        exists files first rest,
          Forall2 (fun p f => fs p = Some f) args files
          /\ concat files = first :: rest
          /\ Py.split first = []).
Proof.
  split.
  - intros Hempty. unfold _VirtualTable_Connect. rewrite Create_unfold.
    assert (Hopen : Forall2 (fun p f => fs p = Some f) args
                      (map (fun _ => []) args)).
    { induction Hempty; simpl; constructor; auto. }
    rewrite (_getfiledata_ok _ _ _ Hopen).
    assert (Hnil : concat (map (fun _ : string => @nil string) args) = []).
    { clear. induction args; simpl; auto. }
    rewrite Hnil. simpl. auto.
  - intros schema t h' tb. rewrite Create_unfold.
    destruct (_getfiledata fs args) as [[[header|] d]| |] eqn:E;
      try discriminate.
    intros [= <- <- <-]. cbn [tables]. rewrite lookup_insert_eq.
    intros [= <-]. cbn [columns]. intros Hsplit.
    destruct (_getfiledata_inv _ _ _ _ E) as (files & Hopen & Hhead & _).
    destruct (concat files) as [|first rest] eqn:Hc; [discriminate|].
    injection Hhead as ->. eauto 6.
Qed.

(** C10. The declaration that [Create] returns names the table [foo]
    and lists the columns of the provider, each between single quotes,
    with commas between them; the columns are the whitespace-separated
    tokens of the first line read; and [Create] returns the same for
    every table name. *)
Theorem C10_schema_declares_foo (h : heap) (schema : string) (t : loc)
    (h' : heap) :
  _VirtualTable_Create fs db modulename dbname tablename args h
  = (Ok (schema, t), h') ->
  exists header tb,
    tables h' !! t = Some tb
    /\ (exists d, _getfiledata fs args = Ok (Some header, d))
    /\ columns tb = Py.split header
    /\ schema
       = "create table foo("
         ++ String.concat "," (map (fun c => "'" ++ c ++ "'") (columns tb))
         ++ ")"
    /\ (forall tablename' : string,
          _VirtualTable_Create fs db modulename dbname tablename' args h
          = (Ok (schema, t), h')
          /\ _VirtualTable_Connect fs db modulename dbname tablename' args h
             = (Ok (schema, t), h')).
Proof.
  rewrite Create_unfold.
  destruct (_getfiledata fs args) as [[[header|] d]| |] eqn:E;
    try discriminate.
  intros [= <- <- <-].
  exists header, (mk_Table (Py.split header) d). repeat split.
  - cbn [tables]. apply lookup_insert_eq.
  - now exists d.
  - rewrite Create_unfold, E. reflexivity.
  - unfold _VirtualTable_Connect. rewrite Create_unfold, E. reflexivity.
Qed.

End Creation.

(** C6 on the worked file: connecting after creating. *)
Lemma C6_connect_is_create_witness :
  exists t' h2,
    _VirtualTable_Connect scores_fs tt "tsv" "main" "scores" ["scores.tsv"]
      (snd scores_table)
    = (Ok ("create table foo('id','name','score')", t'), h2)
    /\ tables h2 !! t' = tables (snd scores_table) !! 0%nat.
Proof.
  apply (proj2 (C6_connect_is_create scores_fs tt "tsv" "main" "scores"
                  ["scores.tsv"] empty_heap)).
  vm_compute. reflexivity.
Defined.

(** C9 on a file without lines and on a file whose first line is
    blank. *)
Lemma C9_no_line_no_schema_witness :
  (_VirtualTable_Create blank_fs tt "tsv" "main" "t" ["empty.tsv"] empty_heap
   = (Raise AttributeError, empty_heap)
   /\ _VirtualTable_Connect blank_fs tt "tsv" "main" "t" ["empty.tsv"]
        empty_heap
      = (Raise AttributeError, empty_heap))
  /\ (exists files first rest,
        Forall2 (fun p f => blank_fs p = Some f) ["blank.tsv"] files
        /\ concat files = first :: rest
        /\ Py.split first = []).
Proof.
  split.
  - apply (proj1 (C9_no_line_no_schema blank_fs tt "tsv" "main" "t"
                    ["empty.tsv"] empty_heap)).
    repeat constructor.
  - apply (proj2 (C9_no_line_no_schema blank_fs tt "tsv" "main" "t"
                    ["blank.tsv"] empty_heap)
             "create table foo()" 0%nat
             (snd (_VirtualTable_Create blank_fs tt "tsv" "main" "t"
                     ["blank.tsv"] empty_heap))
             (mk_Table [] [[""]; ["1"; "A"]])); vm_compute; reflexivity.
Defined.

(** C10 on the worked file. *)
Lemma C10_schema_declares_foo_witness :
  exists header tb,
    tables (snd scores_table) !! 0%nat = Some tb
    /\ (exists d, _getfiledata scores_fs ["scores.tsv"] = Ok (Some header, d))
    /\ columns tb = Py.split header
    /\ "create table foo('id','name','score')"
       = "create table foo("
         ++ String.concat "," (map (fun c => "'" ++ c ++ "'") (columns tb))
         ++ ")"
    /\ (forall tablename' : string,
          _VirtualTable_Create scores_fs tt "tsv" "main" tablename'
            ["scores.tsv"] empty_heap
          = (Ok ("create table foo('id','name','score')", 0%nat),
             snd scores_table)
          /\ _VirtualTable_Connect scores_fs tt "tsv" "main" tablename'
               ["scores.tsv"] empty_heap
             = (Ok ("create table foo('id','name','score')", 0%nat),
                snd scores_table)).
Proof.
  apply (C10_schema_declares_foo scores_fs tt "tsv" "main" "scores"
           ["scores.tsv"] empty_heap).
  vm_compute. reflexivity.
Defined.

(** ** Waiting for a locked database *)

Section ExecuteWait.

Context {C : Type}.
Variables statement regex_error : string.
Variable wait : Z.

(** While the messages say [locked] and retries are left, the loop
    goes on with one retry less per failure. *)
Lemma executewait_locked (msgs : list string) : forall retries tail,
  Forall (fun m => Py.search "locked" m = true) msgs ->
  retries < 0 \/ Z.of_nat (length msgs) <= retries ->
  @executewait C (map Throws msgs ++ tail) statement regex_error retries wait
  = (fst (executewait tail statement regex_error
            (retries - Z.of_nat (length msgs)) wait),
     (attempts statement wait msgs
      ++ snd (executewait tail statement regex_error
                (retries - Z.of_nat (length msgs)) wait))%list).
Proof.
  induction msgs as [|m msgs IH]; intros retries tail Hl Hr.
  - simpl. rewrite Z.sub_0_r. now destruct (executewait _ _ _ _ _).
  - inversion_clear Hl as [|? ? Hm Hms].
    cbn [map app executewait]. simpl length in *.
    rewrite Nat2Z.inj_succ in *.
    destruct (Z.eqb_spec retries 0) as [->|_]; [lia|].
    rewrite Hm. cbn [negb fst snd].
    rewrite (IH (retries - 1) tail Hms) by lia.
    cbn [fst snd]. unfold attempts. cbn [map concat app].
    now replace (retries - 1 - Z.of_nat (length msgs))
      with (retries - Z.succ (Z.of_nat (length msgs))) by lia.
Qed.





End ExecuteWait.





(** ** Reading rows through a cursor *)

Lemma index_in_range {A} (l : list A) (k : nat) (x : A) :
  l !! k = Some x -> Py.index l (Z.of_nat k) = Some x.
Proof.
  intros H. pose proof (lookup_lt_Some _ _ _ H) as Hk. unfold Py.index.
  replace (0 <=? Z.of_nat k) with true by (symmetry; apply Z.leb_le; lia).
  replace (Z.of_nat k <? Z.of_nat (length l)) with true
    by (symmetry; apply Z.ltb_lt; lia).
  simpl. now rewrite Nat2Z.id.
Qed.

Lemma index_past_end {A} (l : list A) (i : Z) :
  Z.of_nat (length l) <= i -> Py.index l i = None.
Proof.
  intros H. unfold Py.index.
  replace (i <? Z.of_nat (length l)) with false
    by (symmetry; apply Z.ltb_ge; lia).
  replace (i <? 0) with false by (symmetry; apply Z.ltb_ge; lia).
  now rewrite !andb_false_r.
Qed.

Lemma index_0 {A} (l : list A) : Py.index l 0 = head l.
Proof. now destruct l. Qed.

Lemma Rowid_positioned self h t p tb :
  cursors h !! self = Some (mk_Cursor t (Some p)) ->
  tables h !! t = Some tb ->
  _Cursor_Rowid self h
  = (match Py.index (data tb) p with
     | Some r => match head r with Some x => Ok x | None => Raise IndexError end
     | None => Raise IndexError
     end, h).
Proof.
  intros Hc Ht.
  unfold _Cursor_Rowid, bind, get_pos, get_table, get_data, subscript.
  rewrite Hc; simpl. rewrite Ht; simpl. rewrite Hc; simpl.
  destruct (Py.index (data tb) p) as [r|]; simpl; [|reflexivity].
  rewrite index_0. now destruct (head r).
Qed.

Lemma Column_positioned self col h t p tb :
  cursors h !! self = Some (mk_Cursor t (Some p)) ->
  tables h !! t = Some tb ->
  _Cursor_Column self col h
  = (match Py.index (data tb) p with
     | Some r =>
         match Py.index r col with Some x => Ok x | None => Raise IndexError end
     | None => Raise IndexError
     end, h).
Proof.
  intros Hc Ht.
  unfold _Cursor_Column, bind, get_pos, get_table, get_data, subscript.
  rewrite Hc; simpl. rewrite Ht; simpl. rewrite Hc; simpl.
  destruct (Py.index (data tb) p) as [r|]; simpl; [|reflexivity].
  now destruct (Py.index r col).
Qed.

Lemma bind_assoc {A B D} (m : M A) (k : A -> M B) (k' : B -> M D) h :
  bind (bind m k) k' h = bind m (fun a => bind (k a) k') h.
Proof. unfold bind. now destruct (m h) as [[a| |] h']. Qed.

(** The state after [Filter] and [k] calls of [Next]. *)
Lemma scan_state {A} self (args : list A) k h c :
  cursors h !! self = Some c ->
  (let* _ := _Cursor_Filter self args in nexts self k) h
  = (Ok tt, mk_heap (tables h)
              (<[self := mk_Cursor (table c) (Some (Z.of_nat k))]> (cursors h))).
Proof.
  intros Hc. unfold bind. rewrite (Filter_state _ _ _ _ Hc).
  rewrite (nexts_state _ k _ (table c) 0) by (simpl; apply lookup_insert_eq).
  simpl. now rewrite insert_insert_eq.
Qed.

(** X5. After [Filter] and [k] calls of [Next], with [k] below the
    number of rows, the cursor is on row [k]: [Eof] is false, [Rowid] is
    the first field of that row, and [Column col] is its field [col],
    counted from the end when [col] is negative, or [IndexError] when
    the row has no such field; none of the three moves the cursor. *)
Theorem cursor_reads_row_k {A} (h : heap) (self : loc) (c : _Cursor)
    (tb : _Table) (args : list A) (k : nat) (r : row) :
  cursors h !! self = Some c ->
  tables h !! table c = Some tb ->
  data tb !! k = Some r ->
  let hk := snd ((let* _ := _Cursor_Filter self args in nexts self k) h) in
  _Cursor_Eof self hk = (Ok false, hk)
  /\ _Cursor_Rowid self hk
     = (match r with x :: _ => Ok x | [] => Raise IndexError end, hk)
  /\ (forall col,
        _Cursor_Column self col hk
        = (match Py.index r col with
           | Some x => Ok x
           | None => Raise IndexError
           end, hk)).
Proof.
  intros Hc Ht Hr hk. subst hk. rewrite (scan_state _ _ _ _ _ Hc).
  cbn [snd].
  set (hk := mk_heap _ _).
  assert (Hck : cursors hk !! self
                = Some (mk_Cursor (table c) (Some (Z.of_nat k))))
    by apply lookup_insert_eq.
  assert (Htk : tables hk !! table c = Some tb) by exact Ht.
  pose proof (lookup_lt_Some _ _ _ Hr) as Hlen.
  repeat split.
  - rewrite (Eof_positioned _ _ _ _ _ Hck Htk). f_equal. f_equal.
    apply Z.leb_gt. lia.
  - rewrite (Rowid_positioned _ _ _ _ _ Hck Htk), (index_in_range _ _ _ Hr).
    now destruct r.
  - intros col.
    now rewrite (Column_positioned _ _ _ _ _ _ Hck Htk), (index_in_range _ _ _ Hr).
Qed.

(** X6. After [Filter] and [k] calls of [Next], with [k] at least the
    number of rows, the cursor stays exhausted: [Eof] is true, and
    [Rowid] and [Column] raise [IndexError] and leave the state as it
    is. *)
Theorem cursor_stays_exhausted {A} (h : heap) (self : loc) (c : _Cursor)
    (tb : _Table) (args : list A) (k : nat) (col : Z) :
  cursors h !! self = Some c ->
  tables h !! table c = Some tb ->
  (length (data tb) <= k)%nat ->
  let hk := snd ((let* _ := _Cursor_Filter self args in nexts self k) h) in
  _Cursor_Eof self hk = (Ok true, hk)
  /\ _Cursor_Rowid self hk = (Raise IndexError, hk)
  /\ _Cursor_Column self col hk = (Raise IndexError, hk).
Proof.
  intros Hc Ht Hlen hk. subst hk. rewrite (scan_state _ _ _ _ _ Hc).
  cbn [snd].
  set (hk := mk_heap _ _).
  assert (Hck : cursors hk !! self
                = Some (mk_Cursor (table c) (Some (Z.of_nat k))))
    by apply lookup_insert_eq.
  assert (Htk : tables hk !! table c = Some tb) by exact Ht.
  repeat split.
  - rewrite (Eof_positioned _ _ _ _ _ Hck Htk). f_equal. f_equal.
    apply Z.leb_le. lia.
  - rewrite (Rowid_positioned _ _ _ _ _ Hck Htk), index_past_end by lia.
    reflexivity.
  - rewrite (Column_positioned _ _ _ _ _ _ Hck Htk), index_past_end by lia.
    reflexivity.
Qed.

(** X7. [Filter] rewinds: called again after any number of calls of
    [Next], it leaves the state that the first [Filter] left, so a
    second scan reads the same rows as the first. *)
Theorem Filter_rewinds {A} (h : heap) (self : loc) (c : _Cursor)
    (args args' : list A) (k : nat) :
  cursors h !! self = Some c ->
  (let* _ := _Cursor_Filter self args in
   let* _ := nexts self k in
   _Cursor_Filter self args') h
  = _Cursor_Filter self args h.
Proof.
  intros Hc.
  rewrite <- (bind_assoc (_Cursor_Filter self args) (fun _ => nexts self k)
                (fun _ => _Cursor_Filter self args')).
  unfold bind at 1. rewrite (scan_state _ _ _ _ _ Hc).
  rewrite (Filter_state self args' _
             (mk_Cursor (table c) (Some (Z.of_nat k))))
    by apply lookup_insert_eq.
  rewrite (Filter_state _ _ _ _ Hc). simpl.
  now rewrite insert_insert_eq.
Qed.

(** ** More about the string primitives *)

Lemma append_cons x (a b : string) : String x a ++ b = String x (a ++ b).
Proof. reflexivity. Qed.

Lemma append_nil_l (b : string) : "" ++ b = b.
Proof. reflexivity. Qed.

Ltac push_append := rewrite ?append_cons, ?append_nil_l.

Lemma append_assoc (a b c : string) : (a ++ b) ++ c = a ++ (b ++ c).
Proof.
  induction a as [|x a IH]; push_append; [|rewrite IH]; reflexivity.
Qed.

Lemma append_nil_r (a : string) : a ++ "" = a.
Proof.
  induction a as [|x a IH]; push_append; [|rewrite IH]; reflexivity.
Qed.

Lemma contains_append x a b :
  Py.contains x (a ++ b) = Py.contains x a || Py.contains x b.
Proof.
  induction a as [|y a IH]; push_append; simpl; [reflexivity|].
  now rewrite IH, orb_assoc.
Qed.

Lemma all_chars_append P a b :
  Py.all_chars P (a ++ b) = Py.all_chars P a && Py.all_chars P b.
Proof.
  induction a as [|y a IH]; push_append; simpl; [reflexivity|].
  now rewrite IH, andb_assoc.
Qed.

Lemma all_chars_impl (P Q : ascii -> bool) s :
  (forall a, P a = true -> Q a = true) ->
  Py.all_chars P s = true -> Py.all_chars Q s = true.
Proof.
  intros HPQ. induction s as [|y s IH]; simpl; [reflexivity|].
  intros H. apply andb_prop in H as [Hy Hs].
  now rewrite (HPQ _ Hy), (IH Hs).
Qed.

Lemma plain_append a b : plain (a ++ b) = plain a && plain b.
Proof. apply all_chars_append. Qed.

Lemma plain_nonspace s :
  plain s = true -> Py.all_chars (fun a => negb (Py.isspace a)) s = true.
Proof.
  apply all_chars_impl. intros a H. now apply andb_prop in H as [H _].
Qed.

(** A plain string has no tab, no line feed and no comma. *)
Lemma plain_absent x s :
  Py.isspace x || Ascii.eqb x Py.COMMA = true ->
  plain s = true -> Py.contains x s = false.
Proof.
  intros Hx. induction s as [|y s IH]; simpl; [reflexivity|].
  intros H. apply andb_prop in H as [Hy Hs]. rewrite (IH Hs), orb_false_r.
  destruct (Ascii.eqb_spec y x) as [->|]; [|reflexivity].
  rewrite <- negb_orb in Hy. now rewrite Hx in Hy.
Qed.

Lemma all_chars_join P sep cells :
  Py.all_chars P sep = true ->
  Forall (fun c => Py.all_chars P c = true) cells ->
  Py.all_chars P (Py.join sep cells) = true.
Proof.
  intros Hsep. induction 1 as [|c cells Hc Hcs IH]; [reflexivity|].
  destruct cells as [|c' cells]; [exact Hc|].
  change (Py.join sep (c :: c' :: cells))
    with (c ++ sep ++ Py.join sep (c' :: cells)).
  now rewrite !all_chars_append, Hc, Hsep, IH.
Qed.

Lemma all_chars_absent x s :
  Py.all_chars (fun a => negb (Ascii.eqb a x)) s = true ->
  Py.contains x s = false.
Proof.
  induction s as [|y s IH]; simpl; [reflexivity|].
  intros H. apply andb_prop in H as [Hy Hs].
  apply negb_true_iff in Hy. now rewrite Hy, (IH Hs).
Qed.

Lemma replace_append old new a b :
  Py.replace old new (a ++ b) = Py.replace old new a ++ Py.replace old new b.
Proof.
  induction a as [|x a IH]; push_append; simpl; [|rewrite IH]; reflexivity.
Qed.

Lemma replace_join_tab cells :
  Forall (fun c => plain c = true) cells ->
  Py.replace Py.TAB Py.COMMA (Py.join (String Py.TAB "") cells)
  = Py.join (String Py.COMMA "") cells.
Proof.
  induction 1 as [|c cells Hc Hcs IH]; [reflexivity|].
  assert (Hr : Py.replace Py.TAB Py.COMMA c = c)
    by now apply replace_absent, plain_absent.
  destruct cells as [|c' cells]; [exact Hr|].
  change (Py.join (String Py.TAB "") (c :: c' :: cells))
    with (c ++ String Py.TAB "" ++ Py.join (String Py.TAB "") (c' :: cells)).
  rewrite !replace_append, Hr, IH. reflexivity.
Qed.

Lemma rstrip_nonspace s :
  Py.all_chars (fun a => negb (Py.isspace a)) s = true ->
  Py.rstrip s = s /\ Py.rstrip (s ++ String Py.NL "") = s.
Proof.
  induction s as [|x s IH]; [now split|].
  push_append. simpl. intros H. apply andb_prop in H as [Hx Hs].
  destruct (IH Hs) as [-> ->]. apply negb_true_iff in Hx. rewrite Hx.
  now destruct s.
Qed.

Lemma strip_nonspace s :
  Py.all_chars (fun a => negb (Py.isspace a)) s = true ->
  Py.strip s = s /\ Py.strip (s ++ String Py.NL "") = s.
Proof.
  intros H. unfold Py.strip. destruct s as [|x s]; [now split|].
  pose proof H as H'. simpl in H'. apply andb_prop in H' as [Hx _].
  apply negb_true_iff in Hx.
  push_append. cbn [Py.lstrip]. rewrite Hx.
  rewrite <- append_cons. apply (rstrip_nonspace _ H).
Qed.

Lemma split_on_app sep c rest :
  Py.contains sep c = false ->
  Py.split_on sep (c ++ String sep rest) = c :: Py.split_on sep rest.
Proof.
  induction c as [|x c IH]; push_append; simpl.
  - intros _. now rewrite Ascii.eqb_refl.
  - intros H. apply orb_false_elim in H as [Hx Hc].
    now rewrite Hx, (IH Hc).
Qed.

Lemma split_on_join cells :
  cells <> [] ->
  Forall (fun c => plain c = true) cells ->
  Py.split_on Py.COMMA (Py.join (String Py.COMMA "") cells) = cells.
Proof.
  intros Hne H. induction H as [|c cells Hc Hcs IH]; [congruence|].
  assert (Hn : Py.contains Py.COMMA c = false) by now apply plain_absent.
  destruct cells as [|c' cells]; [now apply split_on_absent|].
  change (Py.join (String Py.COMMA "") (c :: c' :: cells))
    with (c ++ String Py.COMMA (Py.join (String Py.COMMA "") (c' :: cells))).
  rewrite (split_on_app _ _ _ Hn), IH by discriminate. reflexivity.
Qed.

(** A row of plain cells, written with tabs between them and with or
    without a line feed after it, is read back as the same cells. *)
Lemma fields_of_row cells :
  cells <> [] ->
  Forall (fun c => plain c = true) cells ->
  fields (Py.join (String Py.TAB "") cells) = cells
  /\ fields (tsv_line cells) = cells.
Proof.
  intros Hne Hp.
  assert (Hj : Py.all_chars (fun a => negb (Py.isspace a))
                 (Py.join (String Py.COMMA "") cells) = true).
  { apply all_chars_join; [reflexivity|].
    eapply Forall_impl; [exact Hp|]. apply plain_nonspace. }
  destruct (strip_nonspace _ Hj) as [S1 S2].
  unfold fields, tsv_line. split.
  - rewrite (replace_join_tab _ Hp), S1. now apply split_on_join.
  - change (String.concat (String Py.TAB "") cells)
      with (Py.join (String Py.TAB "") cells).
    rewrite replace_append, (replace_join_tab _ Hp).
    change (Py.replace Py.TAB Py.COMMA (String Py.NL ""))
      with (String Py.NL "").
    rewrite S2. now apply split_on_join.
Qed.

Lemma split_from_word c : forall cur s,
  Py.all_chars (fun a => negb (Py.isspace a)) c = true ->
  Py.split_from cur (c ++ s) = Py.split_from (cur ++ c) s.
Proof.
  induction c as [|x c IH]; intros cur s; push_append.
  - now rewrite append_nil_r.
  - simpl. intros H. apply andb_prop in H as [Hx Hc].
    apply negb_true_iff in Hx. rewrite Hx, (IH _ _ Hc).
    now rewrite append_assoc.
Qed.

(** Names without whitespace, written with tabs between them and a
    line feed after them, are the tokens of the line. *)
Lemma split_of_names names :
  Forall (fun n => Py.all_chars (fun a => negb (Py.isspace a)) n = true
                   /\ n <> "") names ->
  Py.split (tsv_line names) = names.
Proof.
  unfold Py.split, tsv_line.
  induction 1 as [|n names [Hn Hne] Hns IH]; [reflexivity|].
  destruct names as [|n' names].
  - cbn [String.concat]. rewrite (split_from_word _ _ _ Hn). push_append.
    destruct n; [congruence | reflexivity].
  - change (String.concat (String Py.TAB "") (n :: n' :: names))
      with (n ++ String Py.TAB ""
              ++ String.concat (String Py.TAB "") (n' :: names)).
    rewrite append_assoc, (split_from_word _ _ _ Hn). push_append.
    cbn [Py.split_from]. change (Py.isspace Py.TAB) with true. cbn iota.
    rewrite IH. destruct n; [congruence | reflexivity].
Qed.

Lemma iter_lines_line l rest :
  Py.contains Py.NL l = false ->
  Py.iter_lines (l ++ String Py.NL rest)
  = (l ++ String Py.NL "") :: Py.iter_lines rest.
Proof.
  induction l as [|x l IH]; push_append.
  - intros _. reflexivity.
  - simpl. intros H. apply orb_false_elim in H as [Hx Hl].
    now rewrite Hx, (IH Hl).
Qed.

Lemma iter_lines_last l :
  Py.contains Py.NL l = false -> l <> "" -> Py.iter_lines l = [l].
Proof.
  induction l as [|x l IH]; [congruence|].
  simpl. intros H _. apply orb_false_elim in H as [Hx Hl]. rewrite Hx.
  destruct l as [|y l]; [reflexivity|].
  now rewrite (IH Hl).
Qed.

Lemma tab_row_no_line_feed cells :
  Forall (fun c => plain c = true) cells ->
  Py.contains Py.NL (Py.join (String Py.TAB "") cells) = false.
Proof.
  intros H. apply all_chars_absent, all_chars_join; [reflexivity|].
  eapply Forall_impl; [exact H|]. intros c Hc.
  apply (all_chars_impl (fun a => negb (Py.isspace a))).
  - intros a Ha.
    destruct (Ascii.eqb_spec a Py.NL) as [->|]; [discriminate Ha | reflexivity].
  - now apply plain_nonspace.
Qed.

(** ** More about the loader *)



Lemma head_app {A} (l1 l2 : list A) :
  head (l1 ++ l2) = match head l1 with Some x => Some x | None => head l2 end.
Proof. now destruct l1. Qed.

(** X9. Loading a list of paths followed by another gives the rows of
    the first load followed by the rows of the second; the header is
    the header of the first load, or of the second when the first read
    no line. *)
Theorem load_of_appended_paths fs (path1 path2 : list string)
    (c1 c2 : option string) (d1 d2 : list row) :
  _getfiledata fs path1 = Ok (c1, d1) ->
  _getfiledata fs path2 = Ok (c2, d2) ->
  _getfiledata fs (path1 ++ path2)
  = Ok (match c1 with Some l => Some l | None => c2 end, (d1 ++ d2)%list).
Proof.
  intros H1 H2.
  destruct (_getfiledata_inv _ _ _ _ H1) as (f1 & O1 & -> & ->).
  destruct (_getfiledata_inv _ _ _ _ H2) as (f2 & O2 & -> & ->).
  rewrite (_getfiledata_ok fs _ (f1 ++ f2)) by now apply Forall2_app.
  now rewrite concat_app, head_app, map_app.
Qed.

(** X10. On a provider that [Create] returned, every row has a first
    field: whenever [Eof] answers false on a cursor, [Rowid] returns
    the first field of the current row and raises nothing. *)
Theorem Rowid_succeeds_before_Eof fs {Connection} (db : Connection)
    (modulename dbname tablename : string) (args : list string)
    (h h1 h2 : heap) (schema : string) (t c : loc) {A} (fargs : list A)
    (k : nat) :
  _VirtualTable_Create fs db modulename dbname tablename args h
  = (Ok (schema, t), h1) ->
  _Table_Open t h1 = (Ok c, h2) ->
  let hk := snd ((let* _ := _Cursor_Filter c fargs in nexts c k) h2) in
  fst (_Cursor_Eof c hk) = Ok false ->
  exists tb x rest,
    tables hk !! t = Some tb
    /\ data tb !! k = Some (x :: rest)
    /\ _Cursor_Rowid c hk = (Ok x, hk).
Proof.
  rewrite Create_unfold.
  destruct (_getfiledata fs args) as [[[header|] d]| |] eqn:E;
    try discriminate.
  intros [= <- <- <-] [= <- <-].
  destruct (_getfiledata_inv _ _ _ _ E) as (files & _ & _ & Hd).
  set (c := fresh (dom (cursors h))).
  set (t := fresh (dom (tables h))).
  set (tb := mk_Table (Py.split header) d).
  set (h1 := mk_heap (<[t := tb]> (tables h)) (cursors h)).
  set (h2 := mk_heap (tables h1) (<[c := mk_Cursor t None]> (cursors h1))).
  assert (Hc : cursors h2 !! c = Some (mk_Cursor t None))
    by apply lookup_insert_eq.
  assert (Ht : tables h2 !! t = Some tb) by apply lookup_insert_eq.
  intros hk. subst hk. rewrite (scan_state _ _ _ _ _ Hc). cbn [snd].
  match goal with |- context [_Cursor_Eof c ?x] => set (hk := x) end.
  assert (Hck : cursors hk !! c = Some (mk_Cursor t (Some (Z.of_nat k))))
    by apply lookup_insert_eq.
  assert (Htk : tables hk !! t = Some tb) by exact Ht.
  rewrite (Eof_positioned _ _ _ _ _ Hck Htk). cbn [fst].
  intros [= Hlt]. apply Z.leb_gt in Hlt.
  destruct (lookup_lt_is_Some_2 (data tb) k) as [r Hr];
    [cbn [data tb] in *; lia|].
  assert (Hne : r <> []).
  { simpl in Hr. rewrite Hd in Hr. apply list_lookup_fmap_Some in Hr
      as (l & -> & _). apply fields_not_nil. }
  destruct r as [|x rest]; [congruence|].
  exists tb, x, rest. repeat split; [exact Htk | exact Hr |].
  rewrite (Rowid_positioned _ _ _ _ _ Hck Htk), (index_in_range _ _ _ Hr).
  reflexivity.
Qed.

(** X11. When the first line of the first file is [H] names without
    whitespace, none of them empty, written with tabs between them,
    and the other paths open, [Create] returns a provider whose columns
    are exactly these [H] names, in order, and the declaration that
    lists them. *)
Theorem header_names_are_the_columns fs {Connection} (db : Connection)
    (modulename dbname tablename : string) (p : string)
    (more : list string) (names : list string) (rest : list string)
    (h : heap) :
  Forall (fun n => Py.all_chars (fun a => negb (Py.isspace a)) n = true
                   /\ n <> "") names ->
  fs p = Some (tsv_line names :: rest) ->
  Forall (fun q => is_Some (fs q)) more ->
  exists t h' d,
    _VirtualTable_Create fs db modulename dbname tablename (p :: more) h
    = (Ok ("create table foo("
           ++ String.concat "," (map (fun c => "'" ++ c ++ "'") names) ++ ")",
           t), h')
    /\ tables h' !! t = Some (mk_Table names d)
    /\ length (columns (mk_Table names d)) = length names.
Proof.
  intros Hn Hp Hmore.
  assert (Hopen : exists files,
             Forall2 (fun q f => fs q = Some f) more files).
  { clear -Hmore. induction Hmore as [|q more [f Hq] _ [files IH]].
    - exists []. constructor.
    - exists (f :: files). now constructor. }
  destruct Hopen as [files Hfiles].
  rewrite Create_unfold.
  rewrite (_getfiledata_ok fs (p :: more) ((tsv_line names :: rest) :: files))
    by now constructor.
  cbn [concat app head]. rewrite (split_of_names _ Hn).
  eexists _, _, _. split; [reflexivity|]. split; [|reflexivity].
  cbn [tables]. apply lookup_insert_eq.
Qed.

(** X12. A file whose lines are rows of plain cells (no whitespace and
    no comma in a cell), written with tabs between the cells and a line
    feed after each row, is loaded as exactly these rows, the first
    line included. *)
Theorem loader_reads_back_rows fs (p : string) (rows : list row) :
  Forall (fun r => r <> [] /\ Forall (fun c => plain c = true) r) rows ->
  fs p = Some (map tsv_line rows) ->
  _getfiledata fs [p] = Ok (head (map tsv_line rows), rows).
Proof.
  intros Hrows Hp.
  assert (Hmap : map fields (map tsv_line rows) = rows).
  { clear Hp. induction Hrows as [|r rows [Hne Hr] _ IH]; [reflexivity|].
    cbn [map]. now rewrite IH, (proj2 (fields_of_row r Hne Hr)). }
  rewrite (_getfiledata_ok fs [p] [map tsv_line rows])
    by (repeat constructor; exact Hp).
  cbn [concat]. now rewrite app_nil_r, Hmap.
Qed.

(** The rows that [toTSV] writes, read back line by line. *)
Lemma read_back_records (f : cell -> string) (recs : list (list cell)) :
  Forall (fun r => r <> [] /\ Forall (fun x => plain (f x) = true) r) recs ->
  (forall r, last recs = Some r ->
             Py.join (String Py.TAB "") (map f r) <> "") ->
  map fields
    (Py.iter_lines
       (Py.join (String Py.NL "")
          (map (fun x => Py.join (String Py.TAB "") (map f x)) recs)))
  = map (map f) recs.
Proof.
  induction 1 as [|r recs [Hne Hr] Hrecs IH]; intros Hlast; [reflexivity|].
  assert (Hcells : map f r <> []) by now destruct r.
  assert (Hplain : Forall (fun c => plain c = true) (map f r))
    by now apply Forall_map.
  pose proof (tab_row_no_line_feed _ Hplain) as Hnl.
  destruct (fields_of_row _ Hcells Hplain) as [F1 F2].
  destruct recs as [|r' recs].
  - change (Py.join (String Py.NL "")
              (map (fun x => Py.join (String Py.TAB "") (map f x)) [r]))
      with (Py.join (String Py.TAB "") (map f r)).
    rewrite iter_lines_last; [|exact Hnl | now apply Hlast].
    cbn [map]. now rewrite F1.
  - change (Py.join (String Py.NL "")
              (map (fun x => Py.join (String Py.TAB "") (map f x))
                 (r :: r' :: recs)))
      with (Py.join (String Py.TAB "") (map f r)
            ++ String Py.NL
                 (Py.join (String Py.NL "")
                    (map (fun x => Py.join (String Py.TAB "") (map f x))
                       (r' :: recs)))).
    rewrite (iter_lines_line _ _ Hnl). cbn [map].
    change (Py.join (String Py.TAB "") (map f r) ++ String Py.NL "")
      with (tsv_line (map f r)).
    rewrite F2. f_equal. apply IH. intros r0 H0. now apply Hlast.
Qed.

(** X13. What [toTSV] writes to an empty file for a result set with
    plain names and plain values (no whitespace and no comma in their
    [str()], the last record not written as an empty line) is loaded
    back by [_getfiledata] as the names followed by the records, every
    value as [toTSV] wrote it: with [remove_none] a [None] comes back
    as the empty string, without it as the text [None]. *)
Theorem toTSV_is_read_back (dbhandle : string -> response result_set)
    (statement : string) (remove_none : bool) (names : list string)
    (recs : list (list cell)) fs (p : string) :
  let f := if remove_none then _str else str in
  dbhandle statement = Returns (mk_result_set (Some names) recs) ->
  names <> [] ->
  Forall (fun n => plain n = true) names ->
  Forall (fun r => r <> [] /\ Forall (fun x => plain (f x) = true) r) recs ->
  (forall r, last recs = Some r ->
             Py.join (String Py.TAB "") (map f r) <> "") ->
  exists text,
    toTSV dbhandle "" statement remove_none = (None, text)
    /\ (fs p = Some (Py.iter_lines text) ->
        _getfiledata fs [p]
        = Ok (Some (tsv_line names), names :: map (map f) recs)).
Proof.
  intros f Hdb Hne Hnames Hrecs Hlast.
  unfold toTSV. rewrite Hdb. cbn [description records]. fold f.
  eexists. split; [reflexivity|]. intros Hp.
  erewrite (_getfiledata_ok fs [p] [_]) by (repeat constructor; exact Hp).
  cbn [concat]. rewrite app_nil_r, append_nil_l, append_assoc.
  rewrite append_cons, append_nil_l.
  rewrite (iter_lines_line _ _ (tab_row_no_line_feed _ Hnames)).
  change (Py.join (String Py.TAB "") names ++ String Py.NL "")
    with (tsv_line names).
  cbn [head map].
  rewrite (proj2 (fields_of_row _ Hne Hnames)).
  now rewrite (read_back_records f recs Hrecs Hlast).
Qed.

(** ** The callers of [executewait] and the statement runners *)

Lemma first_items_of_singletons (names : list cell) :
  first_items (map (fun n => [n]) names) = Some names.
Proof.
  induction names as [|n names IH]; [reflexivity|].
  cbn [map first_items]. now rewrite IH.
Qed.

(** X14. [getTables] waits for a locked database without bound: after
    any number of failures that say [locked] it returns the names that
    the catalogue query yields, in order, having slept five seconds
    after each failure. *)
Theorem getTables_waits_for_the_lock (msgs : list string)
    (d : option (list string)) (names : list cell)
    (rest : list (response result_set)) :
  Forall (fun m => Py.search "locked" m = true) msgs ->
  getTables
    (map Throws msgs
     ++ Returns (mk_result_set d (map (fun n => [n]) names)) :: rest)%list
  = (Returned (Ok names),
     (attempts "select name from sqlite_master where type='table'" 5 msgs
      ++ [Executed "select name from sqlite_master where type='table'"])%list).
Proof.
  intros Hl. unfold getTables.
  rewrite (executewait_locked _ _ _ _ _ _ Hl) by (left; lia).
  cbn [executewait fst snd records]. now rewrite first_items_of_singletons.
Qed.

Section StatementFacts.

Context {DB : Type}.
Variable cc_execute : DB -> string -> DB * option string.

Lemma for_statements_app (l1 l2 : list string) : forall cc,
  for_statements cc_execute (l1 ++ l2) cc
  = match for_statements cc_execute l1 cc with
    | (cc', None) => for_statements cc_execute l2 cc'
    | (cc', Some msg) => (cc', Some msg)
    end.
Proof.
  induction l1 as [|s l1 IH]; intros cc; [reflexivity|].
  cbn [app for_statements].
  destruct (cc_execute cc s) as [cc' [msg|]]; [reflexivity | apply IH].
Qed.

(** [execute] is one run through the statements of [attach] (none when
    [attach] is false, empty or left out) followed by the queries. *)
Lemma execute_unfold (queries : statements) (dbhandle : DB)
    (attach : option statements) :
  execute cc_execute queries dbhandle attach
  = (let r := for_statements cc_execute
                (attached attach ++ statement_list queries) dbhandle in
     (fst r, snd r, match snd r with None => true | Some _ => false end)).
Proof.
  unfold execute, db_execute, attached, statement_list.
  rewrite for_statements_app.
  destruct attach as [a|]; [destruct (truth (Some a))|].
  - destruct (for_statements cc_execute _ dbhandle) as [cc [msg|]];
      [reflexivity|].
    now destruct (for_statements cc_execute _ cc) as [cc' [msg|]].
  - cbn [for_statements].
    now destruct (for_statements cc_execute _ dbhandle) as [cc' [msg|]].
  - cbn [for_statements].
    now destruct (for_statements cc_execute _ dbhandle) as [cc' [msg|]].
Qed.

(** X15. When no statement raises, [execute] has run the statements
    of [attach] (none when [attach] is false, [None], an empty string
    or an empty list) and then the queries, each once and in order, and
    has closed its cursor. *)
Theorem execute_runs_in_order (queries : statements) (dbhandle : DB)
    (attach : option statements) (cc : DB) :
  for_statements cc_execute (attached attach ++ statement_list queries)
    dbhandle = (cc, None) ->
  execute cc_execute queries dbhandle attach = (cc, None, true).
Proof. intros H. now rewrite execute_unfold, H. Qed.

(** X16. When a statement raises, [execute] raises its exception: the
    statements after it are not run, the database is left as that
    statement left it, and the cursor is not closed. *)
Theorem execute_stops_at_first_failure (queries : statements)
    (dbhandle : DB) (attach : option statements)
    (before after : list string) (statement msg : string) (cc1 cc2 : DB) :
  (attached attach ++ statement_list queries)%list
  = (before ++ statement :: after)%list ->
  for_statements cc_execute before dbhandle = (cc1, None) ->
  cc_execute cc1 statement = (cc2, Some msg) ->
  execute cc_execute queries dbhandle attach = (cc2, Some msg, false).
Proof.
  intros Hl Hb Hs. rewrite execute_unfold, Hl, for_statements_app, Hb.
  cbn [for_statements]. now rewrite Hs.
Qed.

End StatementFacts.

(** ** Providers created later *)

Lemma unpositioned_raises self col h t tb :
  cursors h !! self = Some (mk_Cursor t None) ->
  tables h !! t = Some tb ->
  _Cursor_Eof self h = (Raise AttributeError, h)
  /\ _Cursor_Next self h = (Raise AttributeError, h)
  /\ _Cursor_Rowid self h = (Raise AttributeError, h)
  /\ _Cursor_Column self col h = (Raise AttributeError, h).
Proof.
  intros Hc Ht.
  unfold _Cursor_Eof, _Cursor_Next, _Cursor_Rowid, _Cursor_Column, bind,
    get_pos, get_table, get_data.
  rewrite Hc; simpl. rewrite Ht; simpl. now rewrite Hc.
Qed.

(** What a call answers depends on the cursor and on its provider
    only. *)
Lemma invoke_depends self m h1 h2 c tb :
  cursors h1 !! self = Some c -> cursors h2 !! self = Some c ->
  tables h1 !! table c = Some tb -> tables h2 !! table c = Some tb ->
  fst (invoke self m h1) = fst (invoke self m h2).
Proof.
  intros C1 C2 T1 T2. destruct c as [t [p|]]; simpl in T1, T2.
  - destruct m; unfold invoke, bind.
    + now rewrite (Filter_state _ _ _ _ C1), (Filter_state _ _ _ _ C2).
    + now rewrite (Eof_positioned _ _ _ _ _ C1 T1),
        (Eof_positioned _ _ _ _ _ C2 T2).
    + rewrite (Rowid_positioned _ _ _ _ _ C1 T1),
        (Rowid_positioned _ _ _ _ _ C2 T2).
      now destruct (Py.index (data tb) p) as [[|x r]|].
    + rewrite (Column_positioned _ _ _ _ _ _ C1 T1),
        (Column_positioned _ _ _ _ _ _ C2 T2).
      destruct (Py.index (data tb) p) as [r|]; [|reflexivity].
      now destruct (Py.index r col).
    + now rewrite (Next_state _ _ _ _ C1), (Next_state _ _ _ _ C2).
    + reflexivity.
  - destruct m; unfold invoke, bind.
    + now rewrite (Filter_state _ _ _ _ C1), (Filter_state _ _ _ _ C2).
    + destruct (unpositioned_raises self 0 _ _ _ C1 T1) as (-> & _).
      now destruct (unpositioned_raises self 0 _ _ _ C2 T2) as (-> & _).
    + destruct (unpositioned_raises self 0 _ _ _ C1 T1) as (_ & _ & -> & _).
      now destruct (unpositioned_raises self 0 _ _ _ C2 T2) as (_ & _ & -> & _).
    + destruct (unpositioned_raises self col _ _ _ C1 T1) as (_ & _ & _ & ->).
      now destruct (unpositioned_raises self col _ _ _ C2 T2) as (_ & _ & _ & ->).
    + destruct (unpositioned_raises self 0 _ _ _ C1 T1) as (_ & -> & _).
      now destruct (unpositioned_raises self 0 _ _ _ C2 T2) as (_ & -> & _).
    + reflexivity.
Qed.

(** X17. [Create] and [Connect] touch no object that exists: whatever
    the files hold by then and whether the call succeeds or raises, the
    cursors are as before, a cursor's provider keeps its columns and
    rows, and every call on the cursor answers as it would have
    answered before. *)
Theorem Create_leaves_cursors_alone fs {Connection} (db : Connection)
    (modulename dbname tablename : string) (args : list string)
    (h : heap) (self : loc) (c : _Cursor) (tb : _Table) :
  cursors h !! self = Some c ->
  tables h !! table c = Some tb ->
  let h' :=
    snd (_VirtualTable_Create fs db modulename dbname tablename args h) in
  cursors h' = cursors h
  /\ tables h' !! table c = Some tb
  /\ (forall m, fst (invoke self m h') = fst (invoke self m h)).
Proof.
  intros Hc Ht h'.
  assert (H : cursors h' = cursors h /\ tables h' !! table c = Some tb).
  { subst h'. rewrite Create_unfold.
    destruct (_getfiledata fs args) as [[[header|] d]| |]; cbn [snd];
      try (split; [reflexivity | exact Ht]).
    split; [reflexivity|]. cbn [tables].
    rewrite lookup_insert_ne; [exact Ht|].
    intros E. pose proof (not_elem_of_dom_1 _ _ (is_fresh (dom (tables h)))) as F.
    rewrite E, Ht in F. discriminate. }
  destruct H as [H1 H2]. repeat split; try assumption.
  intros m. apply (invoke_depends self m h' h c tb); congruence.
Qed.

(** ** The added properties on concrete inputs *)

(** X5 on the second row of the worked file. *)
Lemma cursor_reads_row_k_witness :
  let hk := snd ((let* _ := _Cursor_Filter 0%nat ([] : list Z) in
                  nexts 0%nat 1) (snd scores_cursor)) in
  _Cursor_Eof 0%nat hk = (Ok false, hk)
  /\ _Cursor_Rowid 0%nat hk = (Ok "1", hk)
  /\ (forall col,
        _Cursor_Column 0%nat col hk
        = (match Py.index ["1"; "A"; "10"] col with
           | Some x => Ok x
           | None => Raise IndexError
           end, hk)).
Proof.
  apply (cursor_reads_row_k (snd scores_cursor) 0%nat (mk_Cursor 0%nat None)
           (mk_Table ["id"; "name"; "score"]
              [["id"; "name"; "score"]; ["1"; "A"; "10"]; ["2"; "B"; "20"]])
           ([] : list Z) 1%nat ["1"; "A"; "10"]);
    vm_compute; reflexivity.
Defined.

(** X6 on the worked file, after four calls of [Next]. *)
Lemma cursor_stays_exhausted_witness :
  let hk := snd ((let* _ := _Cursor_Filter 0%nat ([] : list Z) in
                  nexts 0%nat 4) (snd scores_cursor)) in
  _Cursor_Eof 0%nat hk = (Ok true, hk)
  /\ _Cursor_Rowid 0%nat hk = (Raise IndexError, hk)
  /\ _Cursor_Column 0%nat 1 hk = (Raise IndexError, hk).
Proof.
  apply (cursor_stays_exhausted (snd scores_cursor) 0%nat
           (mk_Cursor 0%nat None)
           (mk_Table ["id"; "name"; "score"]
              [["id"; "name"; "score"]; ["1"; "A"; "10"]; ["2"; "B"; "20"]])
           ([] : list Z) 4%nat 1).
  - vm_compute. reflexivity.
  - vm_compute. reflexivity.
  - simpl. lia.
Defined.

(** X7 on the worked file. *)
Lemma Filter_rewinds_witness :
  (let* _ := _Cursor_Filter 0%nat ([] : list Z) in
   let* _ := nexts 0%nat 2 in
   _Cursor_Filter 0%nat ([] : list Z)) (snd scores_cursor)
  = _Cursor_Filter 0%nat ([] : list Z) (snd scores_cursor).
Proof.
  apply (Filter_rewinds (snd scores_cursor) 0%nat (mk_Cursor 0%nat None)).
  vm_compute. reflexivity.
Defined.


(** X9 on the two files of [parts_fs]. *)
Lemma load_of_appended_paths_witness :
  _getfiledata parts_fs (["a.tsv"] ++ ["b.tsv"])%list
  = Ok (Some (tsv_line ["id"; "v"]),
        ([["id"; "v"]; ["1"; "x"]] ++ [["id"; "v"]; ["2"; "y"]])%list).
Proof.
  apply (load_of_appended_paths parts_fs ["a.tsv"] ["b.tsv"]
           (Some (tsv_line ["id"; "v"])) (Some (tsv_line ["id"; "v"]))
           [["id"; "v"]; ["1"; "x"]] [["id"; "v"]; ["2"; "y"]]);
    vm_compute; reflexivity.
Defined.

(** X10 on the last row of the worked file. *)
Lemma Rowid_succeeds_before_Eof_witness :
  let hk := snd ((let* _ := _Cursor_Filter 0%nat ([] : list Z) in
                  nexts 0%nat 2) (snd scores_cursor)) in
  exists tb x rest,
    tables hk !! 0%nat = Some tb
    /\ data tb !! 2%nat = Some (x :: rest)
    /\ _Cursor_Rowid 0%nat hk = (Ok x, hk).
Proof.
  apply (Rowid_succeeds_before_Eof scores_fs tt "tsv" "main" "scores"
           ["scores.tsv"] empty_heap (snd scores_table) (snd scores_cursor)
           "create table foo('id','name','score')" 0%nat 0%nat
           ([] : list Z) 2%nat);
    vm_compute; reflexivity.
Defined.

(** X11 on the worked file. *)
Lemma header_names_are_the_columns_witness :
  exists t h' d,
    _VirtualTable_Create scores_fs tt "tsv" "main" "scores" ["scores.tsv"]
      empty_heap
    = (Ok ("create table foo("
           ++ String.concat ","
                (map (fun c => "'" ++ c ++ "'") ["id"; "name"; "score"])
           ++ ")", t), h')
    /\ tables h' !! t = Some (mk_Table ["id"; "name"; "score"] d)
    /\ length (columns (mk_Table ["id"; "name"; "score"] d)) = 3%nat.
Proof.
  apply (header_names_are_the_columns scores_fs tt "tsv" "main" "scores"
           "scores.tsv" [] ["id"; "name"; "score"]
           [tsv_line ["1"; "A"; "10"]; tsv_line ["2"; "B"; "20"]] empty_heap).
  - repeat (constructor; [split; [reflexivity | discriminate]|]). constructor.
  - reflexivity.
  - constructor.
Defined.

(** X12 on a file of two rows, with an empty last cell. *)
Lemma loader_reads_back_rows_witness :
  _getfiledata (fun _ => Some (map tsv_line [["id"; "v"]; ["1"; ""]])) ["t.tsv"]
  = Ok (head (map tsv_line [["id"; "v"]; ["1"; ""]]), [["id"; "v"]; ["1"; ""]]).
Proof.
  apply (loader_reads_back_rows
           (fun _ => Some (map tsv_line [["id"; "v"]; ["1"; ""]]))
           "t.tsv" [["id"; "v"]; ["1"; ""]]).
  - repeat (constructor; [split; [discriminate | repeat constructor]|]).
    constructor.
  - reflexivity.
Defined.

(** X13 on a result set of two records, with a [None] that
    [remove_none] writes as an empty cell. *)
Lemma toTSV_is_read_back_witness :
  let dbhandle := fun _ : string =>
    Returns (mk_result_set (Some ["id"; "name"])
               [[Some "1"; None]; [Some "2"; Some "B"]]) in
  let fs := fun _ : string =>
    Some (Py.iter_lines (snd (toTSV dbhandle "" "select * from t" true))) in
  exists text,
    toTSV dbhandle "" "select * from t" true = (None, text)
    /\ (fs "dump.tsv" = Some (Py.iter_lines text) ->
        _getfiledata fs ["dump.tsv"]
        = Ok (Some (tsv_line ["id"; "name"]),
              ["id"; "name"]
              :: map (map _str) [[Some "1"; None]; [Some "2"; Some "B"]])).
Proof.
  intros dbhandle fs.
  apply (toTSV_is_read_back dbhandle "select * from t" true ["id"; "name"]
           [[Some "1"; None]; [Some "2"; Some "B"]] fs "dump.tsv").
  - reflexivity.
  - discriminate.
  - repeat constructor.
  - repeat (constructor; [split; [discriminate | repeat constructor]|]).
    constructor.
  - intros r [= <-]. vm_compute. discriminate.
Defined.

(** X14 on one refusal followed by two table names. *)
Lemma getTables_waits_for_the_lock_witness :
  getTables
    (map Throws ["database is locked"]
     ++ [Returns (mk_result_set (Some ["name"])
                    (map (fun n => [n]) [Some "genes"; Some "exons"]))])%list
  = (Returned (Ok [Some "genes"; Some "exons"]),
     (attempts "select name from sqlite_master where type='table'" 5
        ["database is locked"]
      ++ [Executed "select name from sqlite_master where type='table'"])%list).
Proof.
  apply (getTables_waits_for_the_lock ["database is locked"]
           (Some ["name"]) [Some "genes"; Some "exons"] []).
  repeat constructor.
Defined.

(** X15 on a database that logs its statements; the empty [attach]
    is not run. *)
Lemma execute_runs_in_order_witness :
  let cc_execute := fun (log : list string) (s : string) =>
    ((log ++ [s])%list,
     if String.eqb s "bad" then Some "syntax error" else None) in
  execute cc_execute (Many ["create t"; "drop t"]) [] (Some (One ""))
  = (["create t"; "drop t"], None, true).
Proof.
  intros cc_execute.
  apply (execute_runs_in_order cc_execute (Many ["create t"; "drop t"]) []
           (Some (One "")) ["create t"; "drop t"]).
  reflexivity.
Defined.

(** X16 on a database that logs its statements and rejects [bad]. *)
Lemma execute_stops_at_first_failure_witness :
  let cc_execute := fun (log : list string) (s : string) =>
    ((log ++ [s])%list,
     if String.eqb s "bad" then Some "syntax error" else None) in
  execute cc_execute (Many ["create t"; "bad"; "drop t"]) []
    (Some (One "attach x"))
  = (["attach x"; "create t"; "bad"], Some "syntax error", false).
Proof.
  intros cc_execute.
  apply (execute_stops_at_first_failure cc_execute
           (Many ["create t"; "bad"; "drop t"]) [] (Some (One "attach x"))
           ["attach x"; "create t"] ["drop t"] "bad" "syntax error"
           ["attach x"; "create t"] ["attach x"; "create t"; "bad"]);
    reflexivity.
Defined.

(** X17 on the cursor of the worked file and a later [Create] from
    another file. *)
Lemma Create_leaves_cursors_alone_witness :
  let h' :=
    snd (_VirtualTable_Create parts_fs tt "tsv" "main" "parts" ["a.tsv"]
           (snd scores_cursor)) in
  cursors h' = cursors (snd scores_cursor)
  /\ tables h' !! 0%nat
     = Some (mk_Table ["id"; "name"; "score"]
               [["id"; "name"; "score"]; ["1"; "A"; "10"]; ["2"; "B"; "20"]])
  /\ (forall m,
        fst (invoke 0%nat m h') = fst (invoke 0%nat m (snd scores_cursor))).
Proof.
  apply (Create_leaves_cursors_alone parts_fs tt "tsv" "main" "parts"
           ["a.tsv"] (snd scores_cursor) 0%nat (mk_Cursor 0%nat None)
           (mk_Table ["id"; "name"; "score"]
              [["id"; "name"; "score"]; ["1"; "A"; "10"]; ["2"; "B"; "20"]]));
    vm_compute; reflexivity.
Defined.

(** ** A last record written as an empty line *)

Lemma join_snoc_empty sep (texts : list string) :
  texts <> [] ->
  Py.join sep (texts ++ [""])%list = Py.join sep texts ++ sep.
Proof.
  induction texts as [|t texts IH]; [congruence|]. intros _.
  destruct texts as [|t' texts].
  - cbn [app Py.join String.concat]. now rewrite append_nil_r.
  - change (Py.join sep ((t :: t' :: texts) ++ [""])%list)
      with (t ++ sep ++ Py.join sep ((t' :: texts) ++ [""])%list).
    change (Py.join sep (t :: t' :: texts))
      with (t ++ sep ++ Py.join sep (t' :: texts)).
    rewrite IH by discriminate. now rewrite !append_assoc.
Qed.

Lemma read_back_ended_records (f : cell -> string) (recs : list (list cell)) :
  Forall (fun r => r <> [] /\ Forall (fun x => plain (f x) = true) r) recs ->
  map fields
    (Py.iter_lines
       (Py.join (String Py.NL "")
          (map (fun x => Py.join (String Py.TAB "") (map f x)) recs)
        ++ String Py.NL ""))
  = match recs with [] => [[""]] | _ => map (map f) recs end.
Proof.
  induction 1 as [|r recs [Hne Hr] Hrecs IH]; [reflexivity|].
  assert (Hcells : map f r <> []) by now destruct r.
  assert (Hplain : Forall (fun c => plain c = true) (map f r))
    by now apply Forall_map.
  pose proof (tab_row_no_line_feed _ Hplain) as Hnl.
  destruct (fields_of_row _ Hcells Hplain) as [_ F2].
  destruct recs as [|r' recs].
  - change (Py.join (String Py.NL "")
              (map (fun x => Py.join (String Py.TAB "") (map f x)) [r]))
      with (Py.join (String Py.TAB "") (map f r)).
    rewrite (iter_lines_line _ "" Hnl). cbn [Py.iter_lines map].
    change (Py.join (String Py.TAB "") (map f r) ++ String Py.NL "")
      with (tsv_line (map f r)).
    now rewrite F2.
  - change (Py.join (String Py.NL "")
              (map (fun x => Py.join (String Py.TAB "") (map f x))
                 (r :: r' :: recs)))
      with (Py.join (String Py.TAB "") (map f r)
            ++ String Py.NL
                 (Py.join (String Py.NL "")
                    (map (fun x => Py.join (String Py.TAB "") (map f x))
                       (r' :: recs)))).
    rewrite append_assoc, append_cons, (iter_lines_line _ _ Hnl).
    cbn [map].
    change (Py.join (String Py.TAB "") (map f r) ++ String Py.NL "")
      with (tsv_line (map f r)).
    rewrite F2. f_equal. exact IH.
Qed.

(** X18. A last record that [toTSV] writes as an empty line, a single
    [None] under [remove_none], is lost when the file is loaded: the
    text ends with the line feed of the line before, and the load
    returns the names and the records before the last. *)
Theorem toTSV_loses_an_empty_last_record
    (dbhandle : string -> response result_set) (statement : string)
    (names : list string) (recs : list (list cell)) fs (p : string) :
  dbhandle statement
  = Returns (mk_result_set (Some names) (recs ++ [[None]])%list) ->
  names <> [] ->
  Forall (fun n => plain n = true) names ->
  Forall (fun r => r <> [] /\ Forall (fun x => plain (_str x) = true) r)
    recs ->
  exists text,
    toTSV dbhandle "" statement true = (None, text)
    /\ (fs p = Some (Py.iter_lines text) ->
        _getfiledata fs [p]
        = Ok (Some (tsv_line names), names :: map (map _str) recs)).
Proof.
  intros Hdb Hne Hnames Hrecs.
  unfold toTSV. rewrite Hdb. cbn [description records].
  eexists. split; [reflexivity|]. intros Hp.
  erewrite (_getfiledata_ok fs [p] [_]) by (repeat constructor; exact Hp).
  cbn [concat]. rewrite app_nil_r, append_nil_l, append_assoc.
  rewrite append_cons, append_nil_l.
  rewrite (iter_lines_line _ _ (tab_row_no_line_feed _ Hnames)).
  change (Py.join (String Py.TAB "") names ++ String Py.NL "")
    with (tsv_line names).
  cbn [head map].
  rewrite (proj2 (fields_of_row _ Hne Hnames)). do 3 f_equal.
  rewrite map_app. cbn [map Py.join String.concat _str].
  destruct recs as [|r recs]; [reflexivity|].
  rewrite join_snoc_empty by discriminate.
  now rewrite (read_back_ended_records _str (r :: recs) Hrecs).
Qed.

(** X18 on two records, the second a single [None]. *)
Lemma toTSV_loses_an_empty_last_record_witness :
  let dbhandle := fun _ : string =>
    Returns (mk_result_set (Some ["name"]) ([[Some "a"]] ++ [[None]])%list) in
  let fs := fun _ : string =>
    Some (Py.iter_lines (snd (toTSV dbhandle "" "select name from t" true))) in
  exists text,
    toTSV dbhandle "" "select name from t" true = (None, text)
    /\ (fs "dump.tsv" = Some (Py.iter_lines text) ->
        _getfiledata fs ["dump.tsv"]
        = Ok (Some (tsv_line ["name"]),
              ["name"] :: map (map _str) [[Some "a"]])).
Proof.
  intros dbhandle fs.
  apply (toTSV_loses_an_empty_last_record dbhandle "select name from t"
           ["name"] [[Some "a"]] fs "dump.tsv").
  - reflexivity.
  - discriminate.
  - repeat constructor.
  - repeat (constructor; [split; [discriminate | repeat constructor]|]).
    constructor.
Defined.
